(** * The Discord notification dispatcher of aura-applications

    A shallow embedding of [src/lib/discord-bot.ts]: the module-level
    state ([client], [isReady], [messageQueue]), the lazy initialisation,
    the queue drain with its retry policy, the embed composition and the
    public [sendDirectMessage] entry point.

    Numbers are JavaScript numbers used as integers and are modelled by
    [Z]; strings are byte strings; the message queue is a [list] whose
    head is index 0 ([shift]/[unshift] work on the head, [push] on the
    tail).  Everything the module does to the outside world (console,
    timers, the discord.js client) is recorded as a list of [Effect]s. *)

From Stdlib Require Import String Ascii List ZArith Lia Bool DecimalString.
Import ListNotations.

Local Open Scope string_scope.
Local Open Scope Z_scope.

(** ** JavaScript helpers *)

Module JS.

(** Truthiness of a [string | undefined] value: [undefined] and the
    empty string are falsy. *)
Definition truthy (v : option string) : bool :=
  match v with
  | None => false
  | Some s => negb (String.eqb s "")
  end.

(** [haystack.includes(needle)]. *)
Fixpoint includes (needle haystack : string) : bool :=
  String.prefix needle haystack ||
  match haystack with
  | EmptyString => false
  | String _ rest => includes needle rest
  end.

(** Template-literal rendering of an integer. *)
Definition numberToString (n : Z) : string :=
  NilZero.string_of_int (Z.to_int n).

(** The line feed written [\n] in the source. *)
Definition nl : string := String (ascii_of_nat 10) EmptyString.

End JS.

(** ** config.ts: the branding block *)

Record DiscordBotConfig := {
  serverName : string;
  serverIcon : string;
  footerText : string
}.

Record ApplicationConfig := {
  discordBot : DiscordBotConfig
}.

Definition applicationConfig : ApplicationConfig :=
  {| discordBot :=
       {| serverName := "Aura Development";
          serverIcon := "https://i.postimg.cc/X71XVpvP/LOGO-Aura-City-2000x2000-V2-by-Flight-Design.png";
          footerText := "© 2024 Aura Development - All rights reserved" |} |}.

(** ** The embed builder of discord.js, as far as the module uses it *)

Inductive Status := approved | denied.

Definition Status_eqb (a b : Status) : bool :=
  match a, b with
  | approved, approved | denied, denied => true
  | _, _ => false
  end.

Record EmbedField := {
  name : string;
  value : string;
  inline : option bool
}.

Record EmbedAuthor := { authorName : string; authorIconURL : string }.
Record EmbedFooter := { text : string; iconURL : string }.

Record EmbedBuilder := {
  color : option string;
  author : option EmbedAuthor;
  title : option string;
  description : option string;
  fields : list EmbedField;
  footer : option EmbedFooter;
  timestamp : option Z
}.

Module Embed.

Definition empty : EmbedBuilder :=
  {| color := None; author := None; title := None; description := None;
     fields := []; footer := None; timestamp := None |}.

Definition setColor (c : string) (e : EmbedBuilder) : EmbedBuilder :=
  {| color := Some c; author := author e; title := title e;
     description := description e; fields := fields e;
     footer := footer e; timestamp := timestamp e |}.

Definition setAuthor (a : EmbedAuthor) (e : EmbedBuilder) : EmbedBuilder :=
  {| color := color e; author := Some a; title := title e;
     description := description e; fields := fields e;
     footer := footer e; timestamp := timestamp e |}.

Definition setTitle (t : string) (e : EmbedBuilder) : EmbedBuilder :=
  {| color := color e; author := author e; title := Some t;
     description := description e; fields := fields e;
     footer := footer e; timestamp := timestamp e |}.

Definition setDescription (d : string) (e : EmbedBuilder) : EmbedBuilder :=
  {| color := color e; author := author e; title := title e;
     description := Some d; fields := fields e;
     footer := footer e; timestamp := timestamp e |}.

(** [addFields] appends after the fields already present. *)
Definition addFields (fs : list EmbedField) (e : EmbedBuilder) : EmbedBuilder :=
  {| color := color e; author := author e; title := title e;
     description := description e; fields := (fields e ++ fs)%list;
     footer := footer e; timestamp := timestamp e |}.

Definition setFooter (f : EmbedFooter) (e : EmbedBuilder) : EmbedBuilder :=
  {| color := color e; author := author e; title := title e;
     description := description e; fields := fields e;
     footer := Some f; timestamp := timestamp e |}.

(** [setTimestamp()] without argument stamps the current instant. *)
Definition setTimestamp (now : Z) (e : EmbedBuilder) : EmbedBuilder :=
  {| color := color e; author := author e; title := title e;
     description := description e; fields := fields e;
     footer := footer e; timestamp := Some now |}.

(** Number of fields carrying a given label. *)
Definition countLabel (label : string) (e : EmbedBuilder) : nat :=
  List.length (List.filter (fun f => String.eqb (name f) label) (fields e)).


End Embed.

(** ** The message composer (sendDirectMessageInternal, lines 82-129)

    The clock is read twice, once for the [Decision Date] field and once
    by [setTimestamp()].  A [Clock] gives the value of the k-th reading of
    [Date.now()] during one composition, in milliseconds. *)

Definition Clock := nat -> Z.


(** The clock that shows [t] at every reading. *)
Definition frozenAt (t : Z) : Clock := fun _ => t.

Definition green : string := "#00FF00".
Definition red : string := "#FF0000".

Definition acceptedText : string :=
  "Hello there," ++ JS.nl ++ JS.nl ++ "After reviewing your application, we're excited to let you know that your whitelist application has been **ACCEPTED**! üéâ" ++ JS.nl ++ JS.nl ++ "Your responses demonstrated a strong understanding of roleplay and alignment with our community values. We believe you'll be a great addition to our server!" ++ JS.nl ++ JS.nl ++ "**Next Steps:**" ++ JS.nl ++ "1. Join our Discord server if you haven't already" ++ JS.nl ++ "2. Read the rules and guidelines in #server-rules" ++ JS.nl ++ "3. Connect to the server using your whitelisted Steam account".

Definition deniedText : string :=
  "Hello there," ++ JS.nl ++ JS.nl ++ "After careful consideration of your whitelist application, we regret to inform you that your application has been **DENIED** at this time." ++ JS.nl ++ JS.nl ++ "You may reapply after a 14-day waiting period, taking into account the feedback provided.".

Definition composeEmbed (cfg : DiscordBotConfig) (clk : Clock)
    (status : Status) (reason : option string) : EmbedBuilder :=
  let timestamp := clk 0%nat / 1000 in
  let timestampLong := "<t:" ++ JS.numberToString timestamp ++ ":F>" in
  let embed :=
    Embed.addFields
      [ {| name := "Application Status";
           value := if Status_eqb status approved then "‚úÖ Accepted" else "‚ùå Denied";
           inline := Some true |};
        {| name := "Decision Date"; value := timestampLong; inline := Some true |} ]
      (Embed.setDescription
         (if Status_eqb status approved then acceptedText else deniedText)
         (Embed.setTitle "Whitelist Application Response"
            (Embed.setAuthor
               {| authorName := serverName cfg; authorIconURL := serverIcon cfg |}
               (Embed.setColor (if Status_eqb status approved then green else red)
                  Embed.empty)))) in
  let embed :=
    match reason with
    | Some r =>
        if JS.truthy reason
        then Embed.addFields
               [ {| name := if Status_eqb status approved then "Staff Note" else "Reason";
                    value := r; inline := Some false |} ] embed
        else embed
    | None => embed
    end in
  let embed :=
    Embed.setTimestamp (clk 1%nat)
      (Embed.setFooter {| text := footerText cfg; iconURL := serverIcon cfg |} embed) in
  if Status_eqb status approved
  then Embed.addFields
         [ {| name := "Important Information";
              value := "Please make sure to read our server rules and guidelines before connecting. If you have any questions, our staff team is here to help!";
              inline := None |} ] embed
  else embed.

(** ** Module state of discord-bot.ts *)

Inductive GatewayIntentBits := Guilds | DirectMessages.

(** The discord.js client object: the intents it was built with and the
    logged-in user's tag, known once the gateway handshake is over. *)
Record Client := {
  intents : list GatewayIntentBits;
  userTag : option string
}.

Record QueuedMessage := {
  userId : string;
  status : Status;
  reason : option string;
  retries : Z
}.

(** [let client], [let isReady], [const messageQueue]. *)
Record Bot := {
  client : option Client;
  isReady : bool;
  messageQueue : list QueuedMessage
}.

Definition initialBot : Bot :=
  {| client := None; isReady := false; messageQueue := [] |}.

(** [process.env] *)
Record ProcessEnv := { DISCORD_BOT_TOKEN : option string }.

(** ** What the module does to the outside world *)

Inductive ClientEvent := ReadyEvent | ErrorEvent | DisconnectEvent.

Inductive Callback :=
| DrainCallback                  (* () => processMessageQueue() *)
| IntervalCallback               (* the guarded drain of the ready handler *)
| GraceCallback                  (* resolve of the grace-period promise *)
| TimeoutCallback (message : string). (* reject(new Error(message)) of a race *)

Inductive Effect :=
| ConsoleLog (line : string)
| ConsoleError (line : string) (err : option string)
| NewClient (c : Client)
| ClientOn (event : ClientEvent)
| ClientLogin (token : option string)
| UsersFetch (uid : string)
| UserSend (uid : string) (embed : EmbedBuilder)
| SetTimeout (cb : Callback) (ms : Z)
| SetInterval (cb : Callback) (ms : Z).

Definition isUsersFetch (e : Effect) : bool :=
  match e with UsersFetch _ => true | _ => false end.
Definition isUserSend (e : Effect) : bool :=
  match e with UserSend _ _ => true | _ => false end.
Definition isClientLogin (e : Effect) : bool :=
  match e with ClientLogin _ => true | _ => false end.
Definition isNewClient (e : Effect) : bool :=
  match e with NewClient _ => true | _ => false end.
Definition isSetTimeout (e : Effect) : bool :=
  match e with SetTimeout _ _ => true | _ => false end.
Definition isDrainTimer (e : Effect) : bool :=
  match e with SetTimeout DrainCallback _ => true | _ => false end.

(** A send attempt is one call of [client.users.fetch]. *)
Definition attempts (effs : list Effect) : nat :=
  List.length (List.filter isUsersFetch effs).

(** Any use of the connection for delivery: a fetch or a send. *)
Definition usesConnection (effs : list Effect) : bool :=
  List.existsb (fun e => isUsersFetch e || isUserSend e) effs.

(** ** The platform's answer to one send attempt

    [users.fetch] and [user.send] each race against a 10 s timer; an
    answer that does not arrive in time is [..Pending]. *)

Inductive FetchReply :=
| FetchUser | FetchNull | FetchRejects (message : string) | FetchPending.

Inductive SendReply :=
| SendOk | SendRejects (message : string) | SendPending.

Record Platform := { fetchReply : FetchReply; sendReply : SendReply }.

Definition delivers (net : Platform) : bool :=
  match fetchReply net, sendReply net with
  | FetchUser, SendOk => true
  | _, _ => false
  end.

(** ** Promises, exceptions and the process monad

    A computation of the module reads and writes [Bot], emits effects
    and either completes or throws an [Error] (carried by its message).
    What other tasks do to the module state while a computation is
    suspended at an [await] is an [Interference]. *)

Inductive Settled (A : Type) :=
| Fulfilled (a : A)
| Rejected (message : string).
Arguments Fulfilled {A} a.
Arguments Rejected {A} message.

Definition Proc (A : Type) : Type := Bot -> Settled A * Bot * list Effect.

Definition Interference := Bot -> Bot.
Definition quiet : Interference := fun s => s.

Module Proc.

Definition ret {A} (a : A) : Proc A := fun s => (Fulfilled a, s, []).

Definition bind {A B} (c : Proc A) (f : A -> Proc B) : Proc B :=
  fun s =>
    match c s with
    | (Fulfilled a, s1, e1) =>
        let '(r, s2, e2) := f a s1 in (r, s2, (e1 ++ e2)%list)
    | (Rejected m, s1, e1) => (Rejected m, s1, e1)
    end.

Definition throw {A} (message : string) : Proc A :=
  fun s => (Rejected message, s, []).

Definition tryCatch {A} (c : Proc A) (handler : string -> Proc A) : Proc A :=
  fun s =>
    match c s with
    | (Rejected m, s1, e1) =>
        let '(r, s2, e2) := handler m s1 in (r, s2, (e1 ++ e2)%list)
    | done => done
    end.

Definition emit (e : Effect) : Proc unit := fun s => (Fulfilled tt, s, [e]).

Definition get : Proc Bot := fun s => (Fulfilled s, s, []).

Definition await (others : Interference) : Proc unit :=
  fun s => (Fulfilled tt, others s, []).

Definition setClient (c : option Client) : Proc unit :=
  fun s => (Fulfilled tt,
            {| client := c; isReady := isReady s; messageQueue := messageQueue s |}, []).

Definition setIsReady (b : bool) : Proc unit :=
  fun s => (Fulfilled tt,
            {| client := client s; isReady := b; messageQueue := messageQueue s |}, []).

Definition setQueue (q : list QueuedMessage) : Proc unit :=
  fun s => (Fulfilled tt,
            {| client := client s; isReady := isReady s; messageQueue := q |}, []).

(** [messageQueue.push(m)] *)
Definition push (m : QueuedMessage) : Proc unit :=
  fun s => setQueue (messageQueue s ++ [m])%list s.

(** [messageQueue.unshift(m)] *)
Definition unshift (m : QueuedMessage) : Proc unit :=
  fun s => setQueue (m :: messageQueue s) s.

(** [messageQueue.shift()] *)
Definition shift : Proc (option QueuedMessage) :=
  fun s =>
    match messageQueue s with
    | [] => (Fulfilled None, s, [])
    | m :: rest => bind (setQueue rest) (fun _ => ret (Some m)) s
    end.

Definition result {A} (r : Settled A * Bot * list Effect) : Settled A := fst (fst r).
Definition state {A} (r : Settled A * Bot * list Effect) : Bot := snd (fst r).
Definition effects {A} (r : Settled A * Bot * list Effect) : list Effect := snd r.

End Proc.

Declare Scope proc_scope.
Delimit Scope proc_scope with proc.
Notation "x <- c ;; k" := (Proc.bind c (fun x => k))
  (at level 61, c at next level, right associativity) : proc_scope.
Notation "c ;; k" := (Proc.bind c (fun _ => k))
  (at level 61, right associativity) : proc_scope.
Local Open Scope proc_scope.

(** ** initializeDiscordBot (lines 8-50)

    The handlers are registered and the login is started; the handshake
    itself completes later, outside this call. *)

Definition newClient : Client :=
  {| intents := [Guilds; DirectMessages]; userTag := None |}.

Definition initializeDiscordBot (env : ProcessEnv) : Proc unit :=
  if negb (JS.truthy (DISCORD_BOT_TOKEN env)) then
    Proc.emit (ConsoleError "DISCORD_BOT_TOKEN is not set in the environment variables" None)
  else
    s <- Proc.get ;;
    match client s with
    | Some _ => Proc.emit (ConsoleLog "Discord bot already initialized")
    | None =>
        Proc.setClient (Some newClient) ;;
        Proc.emit (NewClient newClient) ;;
        Proc.emit (ClientOn ReadyEvent) ;;
        Proc.emit (ClientOn ErrorEvent) ;;
        Proc.emit (ClientOn DisconnectEvent) ;;
        Proc.emit (ClientLogin (DISCORD_BOT_TOKEN env))
    end.

(** The [error] and [disconnect] handlers. *)
Definition onError (err : string) : Proc unit :=
  Proc.emit (ConsoleError "Discord client error:" (Some err)) ;;
  Proc.setIsReady false.

Definition onDisconnect : Proc unit :=
  Proc.emit (ConsoleLog "Discord bot disconnected") ;;
  Proc.setIsReady false.

(** ** sendDirectMessageInternal (lines 77-164)

    The two timed legs touch no module state, so one [await] stands for
    both suspensions: [others] is all that other tasks do to the module
    state until the attempt settles. *)

Definition raceFetch (others : Interference) (net : Platform) (uid : string) : Proc bool :=
  Proc.emit (UsersFetch uid) ;;
  Proc.emit (SetTimeout (TimeoutCallback "User fetch timeout") 10000) ;;
  Proc.await others ;;
  match fetchReply net with
  | FetchUser => Proc.ret true
  | FetchNull => Proc.ret false
  | FetchRejects m => Proc.throw m
  | FetchPending => Proc.throw "User fetch timeout"
  end.

Definition raceSend (net : Platform) (uid : string) (embed : EmbedBuilder) : Proc unit :=
  Proc.emit (UserSend uid embed) ;;
  Proc.emit (SetTimeout (TimeoutCallback "Message send timeout") 10000) ;;
  match sendReply net with
  | SendOk => Proc.ret tt
  | SendRejects m => Proc.throw m
  | SendPending => Proc.throw "Message send timeout"
  end.

Definition sendDirectMessageInternal (others : Interference) (clk : Clock)
    (net : Platform) (uid : string) (st : Status) (rs : option string) : Proc unit :=
  s <- Proc.get ;;
  match client s with
  | None => Proc.throw "Discord bot not initialized"
  | Some _ =>
      let embed := composeEmbed (discordBot applicationConfig) clk st rs in
      Proc.tryCatch
        (user <- raceFetch others net uid ;;
         (if user then Proc.ret tt else Proc.throw "User not found") ;;
         raceSend net uid embed ;;
         Proc.emit (ConsoleLog ("Discord message sent successfully to user " ++ uid)))
        (fun errorMessage =>
           (if JS.includes "Cannot send messages to this user" errorMessage then
              Proc.emit (ConsoleError ("Cannot send DM to user " ++ uid ++ ": User has DMs disabled or bot is blocked") None)
            else if JS.includes "Missing Permissions" errorMessage then
              Proc.emit (ConsoleError ("Cannot send DM to user " ++ uid ++ ": Bot lacks permissions") None)
            else if JS.includes "Unknown User" errorMessage then
              Proc.emit (ConsoleError ("Cannot send DM to user " ++ uid ++ ": User not found") None)
            else
              Proc.emit (ConsoleError ("Failed to send Discord message to user " ++ uid ++ ":") (Some errorMessage))) ;;
           Proc.throw errorMessage)
  end.

(** ** processMessageQueue (lines 52-75) *)

Definition retry (m : QueuedMessage) : QueuedMessage :=
  {| userId := userId m; status := status m; reason := reason m;
     retries := retries m + 1 |}.

Definition processMessageQueue (others : Interference) (clk : Clock)
    (net : Platform) : Proc unit :=
  s <- Proc.get ;;
  if negb (isReady s) || (List.length (messageQueue s) =? 0)%nat then Proc.ret tt
  else
    Proc.emit (ConsoleLog ("Processing " ++ JS.numberToString (Z.of_nat (List.length (messageQueue s))) ++ " queued Discord messages...")) ;;
    shifted <- Proc.shift ;;
    match shifted with
    | None => Proc.ret tt
    | Some message =>
        Proc.tryCatch
          (sendDirectMessageInternal others clk net (userId message) (status message) (reason message) ;;
           Proc.emit (ConsoleLog ("Queued message sent to user " ++ userId message)))
          (fun err =>
             Proc.emit (ConsoleError ("Failed to send queued message to user " ++ userId message ++ ":") (Some err)) ;;
             if retries message <? 3 then
               let message := retry message in
               Proc.unshift message ;;
               Proc.emit (ConsoleLog ("Retrying message to user " ++ userId message ++ " (attempt " ++ JS.numberToString (retries message) ++ "/3) in " ++ JS.numberToString (5000 * retries message) ++ "ms")) ;;
               Proc.emit (SetTimeout DrainCallback (5000 * retries message))
             else
               Proc.emit (ConsoleError ("Failed to send message to user " ++ userId message ++ " after 3 retries - giving up") None)) ;;
        Proc.emit (SetTimeout DrainCallback 1000)
    end.

(** ** The ready handler (lines 24-34)

    The handler starts a drain without awaiting it and then arms the
    30 s interval.  The drain is given here run to its end, so with a
    non-empty queue its later effects stand before the interval's
    [SetInterval] in the list; the state reached is the same.  [tag] is
    [client.user.tag] as the library has set it. *)

Definition intervalCallback (others : Interference) (clk : Clock)
    (net : Platform) : Proc unit :=
  s <- Proc.get ;;
  if isReady s && (0 <? List.length (messageQueue s))%nat then
    Proc.emit (ConsoleLog ("Processing " ++ JS.numberToString (Z.of_nat (List.length (messageQueue s))) ++ " queued messages...")) ;;
    processMessageQueue others clk net
  else Proc.ret tt.

Definition onReady (tag : option string) (others : Interference) (clk : Clock)
    (net : Platform) : Proc unit :=
  Proc.emit (ConsoleLog ("Discord bot logged in as "
                         ++ match tag with
                            | Some t => if JS.truthy tag then t else "Unknown"
                            | None => "Unknown"
                            end ++ "!")) ;;
  Proc.setIsReady true ;;
  processMessageQueue others clk net ;;
  Proc.emit (SetInterval IntervalCallback 30000).

(** ** sendDirectMessage (lines 166-186)

    [grace] is what happens to the module state during the one-second
    grace period, [others] what happens while the immediate send is in
    flight.  The body is given in its two parts: the lazy initialisation
    (lines 167-171) and the readiness check with what follows it (lines
    173-185). *)

Definition fresh (uid : string) (st : Status) (rs : option string) : QueuedMessage :=
  {| userId := uid; status := st; reason := rs; retries := 0 |}.

Definition lazyInitialize (env : ProcessEnv) (grace : Interference) : Proc unit :=
  s <- Proc.get ;;
  match client s with
  | None =>
      Proc.emit (ConsoleLog "Discord bot not initialized, initializing now...") ;;
      initializeDiscordBot env ;;
      Proc.emit (SetTimeout GraceCallback 1000) ;;
      Proc.await grace
  | Some _ => Proc.ret tt
  end.

Definition sendWhenReady (others : Interference) (clk : Clock) (net : Platform)
    (uid : string) (st : Status) (rs : option string) : Proc unit :=
  s <- Proc.get ;;
  if negb (isReady s) then
    Proc.emit (ConsoleLog ("Bot not ready, queuing message for user " ++ uid)) ;;
    Proc.push (fresh uid st rs)
  else
    Proc.tryCatch
      (sendDirectMessageInternal others clk net uid st rs)
      (fun err =>
         Proc.emit (ConsoleError ("Immediate send failed for user " ++ uid ++ ", queuing for retry:") (Some err)) ;;
         Proc.push (fresh uid st rs) ;;
         Proc.emit (ConsoleLog ("Message queued for retry to user " ++ uid))).

Definition sendDirectMessage (env : ProcessEnv) (grace others : Interference)
    (clk : Clock) (net : Platform)
    (uid : string) (st : Status) (rs : option string) : Proc unit :=
  lazyInitialize env grace ;;
  sendWhenReady others clk net uid st rs.

(** ** getBotStatus and forceProcessQueue (lines 188-201) *)



Definition forceProcessQueue (others : Interference) (clk : Clock)
    (net : Platform) : Proc unit :=
  s <- Proc.get ;;
  if isReady s then processMessageQueue others clk net else Proc.ret tt.

(** ** Sequences of calls *)

(** Drain passes taken one after the other, each run to its end before
    the next starts. *)
Fixpoint drainPasses (clk : Clock) (nets : list Platform) : Proc unit :=
  match nets with
  | [] => Proc.ret tt
  | net :: more => processMessageQueue quiet clk net ;; drainPasses clk more
  end.

(** [n] calls of [initializeDiscordBot] in a row. *)
Fixpoint initializeTimes (env : ProcessEnv) (n : nat) : Proc unit :=
  match n with
  | O => Proc.ret tt
  | S k => initializeDiscordBot env ;; initializeTimes env k
  end.

(** One request of the calling layer, with the clock and the platform's
    answer it would meet. *)
Record Request := {
  reqClock : Clock;
  reqPlatform : Platform;
  reqUser : string;
  reqStatus : Status;
  reqReason : option string
}.

Definition requested (r : Request) : QueuedMessage :=
  fresh (reqUser r) (reqStatus r) (reqReason r).

(** Calls of [sendDirectMessage] in a row, nothing else running. *)
Fixpoint dispatchAll (env : ProcessEnv) (reqs : list Request) : Proc unit :=
  match reqs with
  | [] => Proc.ret tt
  | r :: more =>
      sendDirectMessage env quiet quiet (reqClock r) (reqPlatform r)
        (reqUser r) (reqStatus r) (reqReason r) ;;
      dispatchAll env more
  end.

(** The module state when [sendDirectMessage] reaches its readiness
    check: the state at the call when a session exists, otherwise the
    state after the lazy initialisation and the grace period. *)
Definition atGate (env : ProcessEnv) (grace : Interference) (s : Bot) : Bot :=
  match client s with
  | Some _ => s
  | None => grace (Proc.state (initializeDiscordBot env s))
  end.

(** ** Timers

    A virtual clock with the pending [setTimeout] callbacks.  A callback
    runs at its due time; among callbacks due at the same time the one
    armed first runs first.  A drain run by a timer is taken as a whole
    at that instant. *)

Record Timer := { due : Z; job : Callback }.

Record World := {
  bot : Bot;
  now : Z;
  timers : list Timer;
  trace : list (Z * Effect)
}.

Definition arm (at_ : Z) (effs : list Effect) : list Timer :=
  List.flat_map
    (fun e => match e with
              | SetTimeout cb ms => [ {| due := at_ + ms; job := cb |} ]
              | _ => []
              end) effs.

Fixpoint pick (ts : list Timer) : option (Timer * list Timer) :=
  match ts with
  | [] => None
  | t :: rest =>
      match pick rest with
      | None => Some (t, [])
      | Some (u, rest') =>
          if due t <=? due u then Some (t, rest) else Some (u, t :: rest')
      end
  end.

Definition exec (p : Proc unit) (w : World) : World :=
  let '(_, s, effs) := p (bot w) in
  {| bot := s; now := now w;
     timers := (timers w ++ arm (now w) effs)%list;
     trace := (trace w ++ List.map (pair (now w)) effs)%list |}.

Definition runCallback (cb : Callback) (at_ : Z) (net : Platform) : Proc unit :=
  match cb with
  | DrainCallback => processMessageQueue quiet (frozenAt at_) net
  | IntervalCallback => intervalCallback quiet (frozenAt at_) net
  | GraceCallback => Proc.ret tt
  | TimeoutCallback _ => Proc.ret tt
  end.

(** Run the next timer that is due. *)
Definition tick (net : Platform) (w : World) : World :=
  match pick (timers w) with
  | None => w
  | Some (t, rest) =>
      let at_ := Z.max (now w) (due t) in
      exec (runCallback (job t) at_ net)
           {| bot := bot w; now := at_; timers := rest; trace := trace w |}
  end.


(** ** Notions used in the statements and proofs *)

(** The statically known fields of a payload. *)
Definition statusField (st : Status) : EmbedField :=
  {| name := "Application Status";
     value := if Status_eqb st approved then "‚úÖ Accepted" else "‚ùå Denied";
     inline := Some true |}.

Definition dateField (clk : Clock) : EmbedField :=
  {| name := "Decision Date";
     value := "<t:" ++ JS.numberToString (clk 0%nat / 1000) ++ ":F>";
     inline := Some true |}.

Definition reasonLabel (st : Status) : string :=
  match st with approved => "Staff Note" | denied => "Reason" end.

Definition reasonFields (st : Status) (rs : option string) : list EmbedField :=
  match rs with
  | Some r =>
      if String.eqb r "" then []
      else [ {| name := reasonLabel st; value := r; inline := Some false |} ]
  | None => []
  end.

Definition infoFields (st : Status) : list EmbedField :=
  match st with
  | approved =>
      [ {| name := "Important Information";
           value := "Please make sure to read our server rules and guidelines before connecting. If you have any questions, our staff team is here to help!";
           inline := None |} ]
  | denied => []
  end.

Definition isConsole (e : Effect) : bool :=
  match e with ConsoleLog _ | ConsoleError _ _ => true | _ => false end.

(** The effects other than console output. *)
Definition actions (effs : list Effect) : list Effect :=
  List.filter (fun e => negb (isConsole e)) effs.

(** The error an attempt ends with, if any. *)
Definition failure (net : Platform) : option string :=
  match fetchReply net with
  | FetchRejects m => Some m
  | FetchPending => Some "User fetch timeout"
  | FetchNull => Some "User not found"
  | FetchUser =>
      match sendReply net with
      | SendOk => None
      | SendRejects m => Some m
      | SendPending => Some "Message send timeout"
      end
  end.

Definition outcome (net : Platform) : Settled unit :=
  match failure net with
  | None => Fulfilled tt
  | Some m => Rejected m
  end.

Definition attemptActions (net : Platform) (uid : string) (embed : EmbedBuilder)
  : list Effect :=
  UsersFetch uid :: SetTimeout (TimeoutCallback "User fetch timeout") 10000 ::
  match fetchReply net with
  | FetchUser =>
      [ UserSend uid embed;
        SetTimeout (TimeoutCallback "Message send timeout") 10000 ]
  | _ => []
  end.

Definition withQueue (q : list QueuedMessage) (s : Bot) : Bot :=
  {| client := client s; isReady := isReady s; messageQueue := q |}.

(** The module state once the attempt on [m] has settled in state [s]. *)
Definition afterAttempt (net : Platform) (m : QueuedMessage) (s : Bot) : Bot :=
  if delivers net then s
  else if retries m <? 3 then withQueue (retry m :: messageQueue s) s
  else s.

(** The drains a pass schedules once its attempt has settled. *)
Definition followUps (net : Platform) (m : QueuedMessage) : list Effect :=
  ((if delivers net then []
    else if retries m <? 3
         then [ SetTimeout DrainCallback (5000 * (retries m + 1)) ]
         else []) ++ [ SetTimeout DrainCallback 1000 ])%list.

Ltac proc_cbn :=
  cbn [Proc.bind Proc.emit Proc.ret Proc.tryCatch Proc.get Proc.throw
       Proc.setQueue Proc.unshift Proc.push Proc.await Proc.shift
       Proc.setClient Proc.setIsReady Proc.result Proc.state Proc.effects
       app negb orb andb fst snd
       client isReady messageQueue retries userId status reason].

Ltac actions_cbn :=
  unfold actions;
  repeat first [ rewrite List.filter_app
               | progress (cbn [List.filter isConsole negb app]) ];
  repeat match goal with
         | |- context [List.filter (fun e => negb (isConsole e)) ?l] =>
             change (List.filter (fun e => negb (isConsole e)) l) with (actions l)
         end.

(** Nothing is left for [initializeDiscordBot] to do: the token is
    missing or a session exists. *)
Definition initSettled (env : ProcessEnv) (s : Bot) : Prop :=
  JS.truthy (DISCORD_BOT_TOKEN env) = false \/ client s <> None.

Definition enqueue (m : QueuedMessage) (s : Bot) : Bot :=
  withQueue (messageQueue s ++ [m]) s.

(** The state a call leaves behind, from the state [g] at its readiness
    check. *)
Definition afterDispatch (others : Interference) (net : Platform)
    (m : QueuedMessage) (g : Bot) : Bot :=
  if isReady g then
    match client g with
    | Some _ => if delivers net then others g else enqueue m (others g)
    | None => enqueue m g
    end
  else enqueue m g.

Definition dispatchActions (net : Platform) (uid : string) (embed : EmbedBuilder)
    (g : Bot) : list Effect :=
  if isReady g then
    match client g with
    | Some _ => attemptActions net uid embed
    | None => []
    end
  else [].

Definition lazyInitActions (env : ProcessEnv) (s : Bot) : list Effect :=
  match client s with
  | Some _ => []
  | None =>
      (actions (Proc.effects (initializeDiscordBot env s))
       ++ [ SetTimeout GraceCallback 1000 ])%list
  end.

Definition sessionBot : Bot :=
  {| client := Some newClient; isReady := false; messageQueue := [] |}.

Definition failing : Platform :=
  {| fetchReply := FetchUser;
     sendReply := SendRejects "Cannot send messages to this user" |}.

Definition readyBot (q : list QueuedMessage) : Bot :=
  {| client := Some newClient; isReady := true; messageQueue := q |}.




Definition withRetries (k : Z) (m : QueuedMessage) : QueuedMessage :=
  {| userId := userId m; status := status m; reason := reason m; retries := k |}.

Definition fails (net : Platform) : Prop := delivers net = false.

Definition delivering : Platform := {| fetchReply := FetchUser; sendReply := SendOk |}.

Definition noToken : ProcessEnv := {| DISCORD_BOT_TOKEN := None |}.

Definition request (uid : string) (st : Status) (rs : option string) : Request :=
  {| reqClock := frozenAt 0; reqPlatform := delivering;
     reqUser := uid; reqStatus := st; reqReason := rs |}.

Definition withToken : ProcessEnv := {| DISCORD_BOT_TOKEN := Some "token" |}.

(** The gateway handshake completing: what the ready handler does to the
    module state. *)
Definition handshake : Interference :=
  fun s => Proc.state (onReady (Some "Aura#0001") quiet (frozenAt 0) delivering s).

(** ** Everything that can happen to the module

    The exported functions, the timer callbacks and the client's events,
    each run to its end before the next.  The handlers are registered on
    the client, so an event reaches the module only when a client
    exists. *)

Inductive Step :=
| CallInitialize
| CallSend (clk : Clock) (net : Platform) (uid : string) (st : Status) (rs : option string)
| CallForce (clk : Clock) (net : Platform)
| TimerDrain (clk : Clock) (net : Platform)
| TimerInterval (clk : Clock) (net : Platform)
| EventReady (tag : option string) (clk : Clock) (net : Platform)
| EventError (err : string)
| EventDisconnect.

Definition whenClient (p : Proc unit) : Proc unit :=
  s <- Proc.get ;;
  match client s with
  | Some _ => p
  | None => Proc.ret tt
  end.

Definition step (env : ProcessEnv) (x : Step) : Proc unit :=
  match x with
  | CallInitialize => initializeDiscordBot env
  | CallSend clk net uid st rs => sendDirectMessage env quiet quiet clk net uid st rs
  | CallForce clk net => forceProcessQueue quiet clk net
  | TimerDrain clk net => processMessageQueue quiet clk net
  | TimerInterval clk net => intervalCallback quiet clk net
  | EventReady tag clk net => whenClient (onReady tag quiet clk net)
  | EventError err => whenClient (onError err)
  | EventDisconnect => whenClient onDisconnect
  end.

Fixpoint steps (env : ProcessEnv) (xs : list Step) : Proc unit :=
  match xs with
  | [] => Proc.ret tt
  | x :: more => step env x ;; steps env more
  end.

(** A ready module has a session. *)
Definition readyHasSession (s : Bot) : Prop :=
  isReady s = true -> client s <> None.

(** Every queued item has a retry count from 0 to 3. *)
Definition retriesBounded (s : Bot) : Prop :=
  List.Forall (fun m => 0 <= retries m <= 3) (messageQueue s).

Definition setReady (b : bool) (s : Bot) : Bot :=
  {| client := client s; isReady := b; messageQueue := messageQueue s |}.

(** What a drain pass leaves, whatever the state it starts in. *)
Definition afterPass (others : Interference) (net : Platform) (s : Bot) : Bot :=
  if isReady s then
    match messageQueue s with
    | [] => s
    | m :: rest =>
        match client s with
        | Some _ => afterAttempt net m (others (withQueue rest s))
        | None =>
            if retries m <? 3
            then withQueue (retry m :: rest) s
            else withQueue rest s
        end
    end
  else s.

(** The items a sequence of steps asks to send. *)
Definition sendsOf (xs : list Step) : list QueuedMessage :=
  List.flat_map
    (fun x => match x with
              | CallSend _ _ uid st rs => [ fresh uid st rs ]
              | _ => []
              end) xs.

(** ** Attempts and passes *)

(** The payloads a list of effects sends, with their recipients. *)
Definition sent (effs : list Effect) : list (string * EmbedBuilder) :=
  List.flat_map
    (fun e => match e with UserSend uid embed => [ (uid, embed) ] | _ => [] end) effs.

(** The payload composed for a queued item at a given clock. *)
Definition payloadOf (clk : Clock) (m : QueuedMessage) : string * EmbedBuilder :=
  (userId m, composeEmbed (discordBot applicationConfig) clk (status m) (reason m)).

Definition fetchTimesOut : Platform :=
  {| fetchReply := FetchPending; sendReply := SendOk |}.

(** ** Readiness gating *)

Definition isEventReady (x : Step) : bool :=
  match x with EventReady _ _ _ => true | _ => false end.

(** ** The timer chain *)

(** Timers fired one after the other, each with the platform's answer to
    the attempt it may start. *)
Fixpoint ticks (nets : list Platform) (w : World) : World :=
  match nets with
  | [] => w
  | net :: more => ticks more (tick net w)
  end.

Definition isDrainJob (cb : Callback) : bool :=
  match cb with
  | DrainCallback | IntervalCallback => true
  | _ => false
  end.

(** The attempts an item still has before it is given up. *)
Definition budget (m : QueuedMessage) : nat := Z.to_nat (4 - retries m).

Definition credit (q : list QueuedMessage) : nat :=
  List.list_sum (List.map budget q).

(** A bound on the number of timers that can still fire. *)
Definition potential (w : World) : nat :=
  (List.length (timers w) + 4 * credit (messageQueue (bot w)))%nat.

(** Queued items have a drain pending. *)
Definition drainPending (w : World) : Prop :=
  messageQueue (bot w) = []
  \/ exists t, List.In t (timers w) /\ isDrainJob (job t) = true.

Definition drainDue (s : Bot) : World :=
  {| bot := s; now := 0;
     timers := [ {| due := 1000; job := DrainCallback |} ]; trace := [] |}.

(** ** config.ts: administrators and the form configuration

    The other members of the [applicationConfig] object and the
    accessors exported beside it. *)

Module Form.

Inductive FieldType := text | number | url | textarea.

Definition FieldType_eqb (a b : FieldType) : bool :=
  match a, b with
  | text, text | number, number | url, url | textarea, textarea => true
  | _, _ => false
  end.

Record FormFieldConfig := {
  name : string;
  label : string;
  placeholder : string;
  description : string;
  type : FieldType;
  required : bool;
  minLength : option Z;
  maxLength : option Z;
  pattern : option string;
  validationMessage : option string
}.

Record FormSectionConfig := {
  id : string;
  title : string;
  sectionDescription : string;
  icon : string;
  fields : list FormFieldConfig
}.

Definition minimumAge : Z := 18.

Definition adminDiscordIds : list string :=
  [ "770344107104010261"; "123456789012345678"; "987654321098765432" ].

Definition sections : list FormSectionConfig :=
  [ {| id := "personal";
       title := "Personal Information";
       sectionDescription := "Basic information about yourself";
       icon := "M16 7a4 4 0 11-8 0 4 4 0 018 0zM12 14a7 7 0 00-7 7h14a7 7 0 00-7-7z";
       fields :=
         [ {| name := "characterName";
              label := "In-Game Character Name";
              placeholder := "Enter your character name";
              description := "The character name you'll use in the server";
              type := text;
              required := true;
              minLength := Some 6;
              maxLength := None;
              pattern := None;
              validationMessage := Some "Character name must be at least 6 characters." |};
           {| name := "age";
              label := "Age";
              placeholder := JS.numberToString minimumAge ++ "+";
              description := "Must be " ++ JS.numberToString minimumAge ++ " or older to apply";
              type := number;
              required := true;
              minLength := None;
              maxLength := None;
              pattern := None;
              validationMessage := Some ("You must be at least " ++ JS.numberToString minimumAge ++ " years old.") |} ] |};
    {| id := "auth";
       title := "Authentication Accounts";
       sectionDescription := "Your platform accounts";
       icon := "M9.75 17L9 20l-1 1h8l-1-1-.75-3M3 13h18M5 17h14a2 2 0 002-2V5a2 2 0 00-2-2H5a2 2 0 00-2 2v10a2 2 0 002 2z";
       fields :=
         [ {| name := "steamId";
              label := "Steam ID (17 digits)";
              placeholder := "76561198...";
              description := "Find this on your Steam profile page";
              type := text;
              required := true;
              minLength := None;
              maxLength := None;
              pattern := Some "^[0-9]{17}$";
              validationMessage := Some "Invalid Steam ID. It should be a 17-digit number." |};
           {| name := "cfxAccount";
              label := "CFX Forum Account";
              placeholder := "https://forum.cfx.re/u/username";
              description := "Your CFX forum profile URL";
              type := url;
              required := true;
              minLength := None;
              maxLength := None;
              pattern := None;
              validationMessage := Some "Please enter a valid CFX account URL." |} ] |};
    {| id := "roleplay";
       title := "Roleplay Background";
       sectionDescription := "Your roleplay experience and character details";
       icon := "M11 5H6a2 2 0 00-2 2v11a2 2 0 002 2h11a2 2 0 002-2v-5m-1.414-9.414a2 2 0 112.828 2.828L11.828 15H9v-2.828l8.586-8.586z";
       fields :=
         [ {| name := "experience";
              label := "Previous Roleplay Experience";
              placeholder := "Describe your previous roleplay experience (minimum 50 characters)...";
              description := "Tell us about your RP background and experience";
              type := textarea;
              required := true;
              minLength := Some 50;
              maxLength := None;
              pattern := None;
              validationMessage := Some "Please provide at least 50 characters about your RP experience." |};
           {| name := "character";
              label := "Character Backstory";
              placeholder := "Write your character's backstory (minimum 100 characters)...";
              description := "Provide a detailed backstory for your character";
              type := textarea;
              required := true;
              minLength := Some 100;
              maxLength := None;
              pattern := None;
              validationMessage := Some "Please provide at least 100 characters about your character backstory." |} ] |} ].

Definition getAdminDiscordIds : list string := adminDiscordIds.
Definition getMinimumAge : Z := minimumAge.
Definition getFormSections : list FormSectionConfig := sections.

(** [getFormField], over a given list of sections. *)
Definition getFormFieldIn (secs : list FormSectionConfig)
    (sectionId fieldName : string) : option FormFieldConfig :=
  match List.find (fun section => String.eqb (id section) sectionId) secs with
  | Some section =>
      List.find (fun field => String.eqb (name field) fieldName) (fields section)
  | None => None
  end.

Definition getFormField (sectionId fieldName : string) : option FormFieldConfig :=
  getFormFieldIn sections sectionId fieldName.

(** [isAdmin], over a given list of administrators. *)
Definition isAdminIn (admins : list string) (discordId : option string) : bool :=
  match discordId with
  | Some d => JS.truthy discordId && List.existsb (String.eqb d) admins
  | None => false
  end.

Definition isAdmin (discordId : option string) : bool :=
  isAdminIn adminDiscordIds discordId.

End Form.

(** ** The admin page's access checks (AdminApplications)

    The effect that redirects or loads the applications, and the guard
    in front of the rendering.  [isAdmin] is imported there from
    [lib/auth], which is not among the sources at hand: the checks are
    given over any such function. *)

Module Admin.

Record DiscordUser := {
  id : string;
  username : string;
  discriminator : string;
  avatar : string;
  banner : string;
  accentColor : option Z;
  verified : bool;
  email : string;
  createdAt : string
}.

Record ExtendedSession := { discord : option DiscordUser }.

Inductive SessionStatus := loading | authenticated | unauthenticated.

Definition SessionStatus_eqb (a b : SessionStatus) : bool :=
  match a, b with
  | loading, loading | authenticated, authenticated
  | unauthenticated, unauthenticated => true
  | _, _ => false
  end.

Inductive Action :=
| RouterPush (path : string)
| FetchApplications
| Nothing.

(** [(session as ExtendedSession)?.discord] *)
Definition discordOf (session : option ExtendedSession) : option DiscordUser :=
  match session with
  | Some s => discord s
  | None => None
  end.

(** The body of the [useEffect] (lines 72-78). *)
Definition accessEffect (isAdmin : option string -> bool)
    (status : SessionStatus) (session : option ExtendedSession) : Action :=
  if SessionStatus_eqb status unauthenticated
     || match discordOf session with
        | Some d => negb (isAdmin (Some (id d)))
        | None => false
        end
  then RouterPush "/"
  else if SessionStatus_eqb status authenticated
          && isAdmin (option_map id (discordOf session))
  then FetchApplications
  else Nothing.

(** The guard before the page is rendered (lines 156-158): [false] when
    the component returns [null]. *)
Definition rendersPage (isAdmin : option string -> bool)
    (status : SessionStatus) (session : option ExtendedSession) : bool :=
  negb (SessionStatus_eqb status loading
        || match discordOf session with
           | None => true
           | Some d => negb (isAdmin (Some (id d)))
           end).

End Admin.

Definition adminUser : Admin.DiscordUser :=
  {| Admin.id := "770344107104010261"; Admin.username := "admin";
     Admin.discriminator := "0"; Admin.avatar := ""; Admin.banner := "";
     Admin.accentColor := None; Admin.verified := true;
     Admin.email := "admin@example.org"; Admin.createdAt := "2020-01-01" |}.

(** ** api/applications/route.ts

    JSON values as [JSON.parse] gives them.  An object is the list of its
    member definitions in order, and a key defined more than once has its
    last value, as in an object literal; the order of keys is not looked
    at.  A number is kept as its text.  The data file is taken at the
    level of the value its text denotes: what [JSON.stringify] writes,
    [JSON.parse] reads back. *)

Module Api.

Set Warnings "-register-all".

Inductive JSON :=
| JNull
| JBool (b : bool)
| JNumber (literal : string)
| JString (s : string)
| JArray (items : list JSON)
| JObject (members : list (string * JSON)).

(** [o[key]] on the members of an object: the last definition of the key. *)
Fixpoint lookup (key : string) (members : list (string * JSON)) : option JSON :=
  match members with
  | [] => None
  | (k, v) :: rest =>
      match lookup key rest with
      | Some later => Some later
      | None => if String.eqb k key then Some v else None
      end
  end.

(** The index keys 0, 1, ... of a string or an array. *)
Fixpoint indexed (i : nat) (items : list JSON) : list (string * JSON) :=
  match items with
  | [] => []
  | x :: rest => (JS.numberToString (Z.of_nat i), x) :: indexed (S i) rest
  end.

Fixpoint characters (s : string) : list JSON :=
  match s with
  | EmptyString => []
  | String c rest => JString (String c EmptyString) :: characters rest
  end.

(** The own enumerable properties a spread [...v] copies (the characters
    of a string are its bytes here). *)
Definition ownProperties (v : JSON) : list (string * JSON) :=
  match v with
  | JObject members => members
  | JArray items => indexed 0 items
  | JString s => indexed 0 (characters s)
  | JNull | JBool _ | JNumber _ => []
  end.

(** data/applications.json: absent (or unreadable), not JSON, or the
    text of a JSON value. *)
Inductive File :=
| Missing
| Unparsable
| Holds (v : JSON).

(** What [fs.writeFile] does: it writes, or it throws and leaves the
    file in some state. *)
Inductive WriteOutcome :=
| Written
| WriteFails (remains : File).

Record Response := { status : Z; body : JSON }.

Definition json (v : JSON) : Response := {| status := 200; body := v |}.

Definition failure (message : string) : Response :=
  {| status := 500; body := JObject [ ("error", JString message) ] |}.

(** [{ id: Date.now().toString(), timestamp: new Date().toISOString(),
      ...application }] *)
Definition newApplication (toISOString : Z -> string) (clk : Clock)
    (application : JSON) : JSON :=
  JObject ([ ("id", JString (JS.numberToString (clk 0%nat)));
             ("timestamp", JString (toISOString (clk 1%nat))) ]
           ++ ownProperties application)%list.

(** [POST]: the response, the file afterwards and whether the failure
    was logged.  [request] is the parsed body, if the body parses. *)
Definition POST (toISOString : Z -> string) (clk : Clock) (fs : WriteOutcome)
    (request : option JSON) (file : File) : Response * File * bool :=
  match request with
  | None => (failure "Failed to save application", file, true)
  | Some application =>
      let applications :=
        match file with
        | Holds v => v
        | Missing | Unparsable => JArray []
        end in
      let newApplication := newApplication toISOString clk application in
      match applications with
      | JArray items =>
          match fs with
          | Written =>
              (json (JObject [ ("message", JString "Application submitted successfully") ]),
               Holds (JArray (items ++ [newApplication])), false)
          | WriteFails remains =>
              (failure "Failed to save application", remains, true)
          end
      | _ => (failure "Failed to save application", file, true)
      end
  end.

(** [GET] *)
Definition GET (file : File) : Response * bool :=
  match file with
  | Holds applications => (json applications, false)
  | Missing | Unparsable => (failure "Failed to read applications", true)
  end.


End Api.

(** The list of applications a file stands for when [POST] reads it: a
    missing or unparsable file counts as the empty list, a JSON value
    that is not an array as nothing. *)
Definition stored (file : Api.File) : option (list Api.JSON) :=
  match file with
  | Api.Holds (Api.JArray items) => Some items
  | Api.Holds _ => None
  | Api.Missing | Api.Unparsable => Some []
  end.



Definition membersOf (v : Api.JSON) : list (string * Api.JSON) :=
  match v with
  | Api.JObject members => members
  | _ => []
  end.

(** * Properties *)

(** ** The composer *)



Lemma composeEmbed_fields cfg clk st rs :
  fields (composeEmbed cfg clk st rs)
  = ([statusField st; dateField clk] ++ reasonFields st rs ++ infoFields st)%list.
Proof.
  unfold composeEmbed, reasonFields.
  destruct st, rs as [r|]; cbn; try reflexivity;
    destruct (String.eqb r ""); reflexivity.
Qed.

Lemma composeEmbed_color cfg clk st rs :
  color (composeEmbed cfg clk st rs)
  = Some (match st with approved => green | denied => red end).
Proof.
  unfold composeEmbed.
  destruct st, rs as [r|]; cbn; try reflexivity;
    destruct (String.eqb r ""); reflexivity.
Qed.

(** A clock that moves between its two readings shows in the payload:
    the frozen clock is needed for two compositions to agree. *)
Example composeEmbed_clock_sensitive :
  composeEmbed (discordBot applicationConfig) (fun _ => 0) approved None
  <> composeEmbed (discordBot applicationConfig) (fun _ => 1000) approved None.
Proof. intros H. apply (f_equal timestamp) in H. discriminate H. Qed.

(** ** One send attempt *)

Lemma failure_delivers net : failure net = None <-> delivers net = true.
Proof.
  unfold failure, delivers.
  destruct (fetchReply net), (sendReply net); split; congruence.
Qed.

Lemma outcome_delivers net : delivers net = true -> outcome net = Fulfilled tt.
Proof.
  intros H. apply failure_delivers in H. unfold outcome. now rewrite H.
Qed.

Lemma outcome_fails net :
  delivers net = false -> exists m, failure net = Some m /\ outcome net = Rejected m.
Proof.
  intros H. unfold outcome.
  destruct (failure net) as [m|] eqn:E.
  - now exists m.
  - apply failure_delivers in E. congruence.
Qed.

Lemma actions_app a b : actions (a ++ b) = (actions a ++ actions b)%list.
Proof. apply List.filter_app. Qed.


Lemma filter_actions (p : Effect -> bool) effs :
  (forall e, isConsole e = true -> p e = false) ->
  List.filter p (actions effs) = List.filter p effs.
Proof.
  intros Hp. unfold actions.
  induction effs as [|e effs IH]; cbn; [reflexivity|].
  destruct (isConsole e) eqn:E; cbn.
  - rewrite (Hp e E). exact IH.
  - destruct (p e); now rewrite IH.
Qed.


Lemma usesConnection_actions effs :
  usesConnection (actions effs) = usesConnection effs.
Proof.
  unfold usesConnection, actions.
  induction effs as [|e effs IH]; cbn; [reflexivity|].
  destruct e; cbn; rewrite ?IH; reflexivity.
Qed.

Lemma arm_actions t effs : arm t (actions effs) = arm t effs.
Proof.
  unfold arm, actions.
  induction effs as [|e effs IH]; cbn; [reflexivity|].
  destruct e; cbn; rewrite ?IH; reflexivity.
Qed.


Lemma sendDirectMessageInternal_run others clk net uid st rs s c :
  client s = Some c ->
  exists effs,
    sendDirectMessageInternal others clk net uid st rs s
    = (outcome net, others s, effs)
    /\ actions effs
       = attemptActions net uid (composeEmbed (discordBot applicationConfig) clk st rs).
Proof.
  intros Hc. unfold sendDirectMessageInternal.
  remember (composeEmbed (discordBot applicationConfig) clk st rs) as embed.
  unfold outcome, failure, attemptActions.
  unfold Proc.bind at 1. unfold Proc.get. rewrite Hc.
  destruct net as [[| |m|] [|m'|]]; cbn;
    repeat match goal with
           | |- context [JS.includes ?a ?b] => destruct (JS.includes a b)
           end; cbn; eexists; split; reflexivity.
Qed.

Lemma sendDirectMessageInternal_no_client others clk net uid st rs s :
  client s = None ->
  sendDirectMessageInternal others clk net uid st rs s
  = (Rejected "Discord bot not initialized", s, []).
Proof.
  intros Hc. unfold sendDirectMessageInternal.
  unfold Proc.bind, Proc.get, Proc.throw. now rewrite Hc.
Qed.

(** ** One drain pass *)

Lemma processMessageQueue_run others clk net s c m rest :
  isReady s = true -> client s = Some c -> messageQueue s = m :: rest ->
  exists effs,
    processMessageQueue others clk net s
    = (Fulfilled tt, afterAttempt net m (others (withQueue rest s)), effs)
    /\ actions effs
       = (attemptActions net (userId m)
            (composeEmbed (discordBot applicationConfig) clk (status m) (reason m))
          ++ followUps net m)%list.
Proof.
  intros Hr Hc Hq.
  destruct (sendDirectMessageInternal_run others clk net (userId m) (status m)
              (reason m) (withQueue rest s) c Hc) as (effs & Hrun & Hact).
  unfold processMessageQueue.
  unfold Proc.bind at 1. unfold Proc.get. rewrite Hr, Hq.
  cbn [negb orb List.length Nat.eqb].
  unfold Proc.bind at 1. unfold Proc.emit at 1.
  unfold Proc.bind at 1. unfold Proc.shift. rewrite Hq.
  unfold Proc.bind at 1. unfold Proc.setQueue at 1. unfold Proc.ret at 1.
  cbn [app].
  fold (withQueue rest s).
  unfold Proc.bind at 1. unfold Proc.tryCatch. unfold Proc.bind at 1.
  rewrite Hrun.
  unfold afterAttempt, followUps, outcome.
  destruct (failure net) as [msg|] eqn:Ef.
  - assert (Hd : delivers net = false).
    { destruct (delivers net) eqn:E; [|reflexivity].
      apply failure_delivers in E. congruence. }
    rewrite Hd.
    destruct (retries m <? 3) eqn:Hlt; proc_cbn;
      (eexists; split; [reflexivity|]); actions_cbn; rewrite Hact; rewrite <- ?List.app_assoc;
      reflexivity.
  - assert (Hd : delivers net = true) by now apply failure_delivers.
    rewrite Hd. proc_cbn.
    eexists; split; [reflexivity|]. actions_cbn. rewrite Hact. rewrite <- ?List.app_assoc. reflexivity.
Qed.

Lemma processMessageQueue_idle others clk net s :
  isReady s = false \/ messageQueue s = [] ->
  processMessageQueue others clk net s = (Fulfilled tt, s, []).
Proof.
  intros H. unfold processMessageQueue.
  unfold Proc.bind at 1. unfold Proc.get.
  destruct H as [H|H]; rewrite H; [reflexivity|].
  now rewrite Bool.orb_true_r.
Qed.

Lemma withQueue_same s : withQueue (messageQueue s) s = s.
Proof. now destruct s. Qed.

(** ** Initialisation *)

Lemma initializeDiscordBot_settled env s :
  initSettled env s ->
  exists line,
    initializeDiscordBot env s = (Fulfilled tt, s, [line]) /\ isConsole line = true.
Proof.
  intros [Htok|Hc]; unfold initializeDiscordBot.
  - rewrite Htok. cbn. eexists. split; reflexivity.
  - destruct (JS.truthy (DISCORD_BOT_TOKEN env)); cbn.
    + destruct (client s) as [c|] eqn:E; [|congruence].
      eexists. split; reflexivity.
    + eexists. split; reflexivity.
Qed.

Lemma initializeDiscordBot_fresh env s :
  JS.truthy (DISCORD_BOT_TOKEN env) = true -> client s = None ->
  initializeDiscordBot env s
  = (Fulfilled tt,
     {| client := Some newClient; isReady := isReady s;
        messageQueue := messageQueue s |},
     [ NewClient newClient; ClientOn ReadyEvent; ClientOn ErrorEvent;
       ClientOn DisconnectEvent; ClientLogin (DISCORD_BOT_TOKEN env) ]).
Proof.
  intros Htok Hc. unfold initializeDiscordBot. rewrite Htok. cbn.
  now rewrite Hc.
Qed.

Lemma initializeDiscordBot_settles env s :
  initSettled env (Proc.state (initializeDiscordBot env s)).
Proof.
  destruct (JS.truthy (DISCORD_BOT_TOKEN env)) eqn:Htok; [|now left].
  destruct (client s) as [c|] eqn:Hc.
  - destruct (initializeDiscordBot_settled env s) as (l & -> & _).
    + right. congruence.
    + right. cbn. congruence.
  - rewrite (initializeDiscordBot_fresh env s Htok Hc). right. cbn. congruence.
Qed.

Lemma initializeDiscordBot_fulfilled env s :
  Proc.result (initializeDiscordBot env s) = Fulfilled tt.
Proof.
  destruct (JS.truthy (DISCORD_BOT_TOKEN env)) eqn:Htok.
  - destruct (client s) as [c|] eqn:Hc.
    + destruct (initializeDiscordBot_settled env s) as (l & -> & _);
        [right; congruence | reflexivity].
    + now rewrite (initializeDiscordBot_fresh env s Htok Hc).
  - destruct (initializeDiscordBot_settled env s) as (l & -> & _);
      [now left | reflexivity].
Qed.

Lemma initializeDiscordBot_logins env s :
  (List.length (List.filter isClientLogin (Proc.effects (initializeDiscordBot env s))) <= 1)%nat
  /\ (List.length (List.filter isNewClient (Proc.effects (initializeDiscordBot env s))) <= 1)%nat.
Proof.
  destruct (JS.truthy (DISCORD_BOT_TOKEN env)) eqn:Htok.
  - destruct (client s) as [c|] eqn:Hc.
    + destruct (initializeDiscordBot_settled env s) as (l & -> & Hl);
        [right; congruence|].
      destruct l; try discriminate Hl; cbn; lia.
    + rewrite (initializeDiscordBot_fresh env s Htok Hc). cbn. lia.
  - destruct (initializeDiscordBot_settled env s) as (l & -> & Hl);
      [now left|].
    destruct l; try discriminate Hl; cbn; lia.
Qed.

(** Once settled, any number of further calls changes nothing and starts
    no login. *)
Lemma initializeTimes_settled env n s :
  initSettled env s ->
  Proc.state (initializeTimes env n s) = s
  /\ List.filter isClientLogin (Proc.effects (initializeTimes env n s)) = []
  /\ List.filter isNewClient (Proc.effects (initializeTimes env n s)) = [].
Proof.
  intros Hs. induction n as [|n IH]; cbn [initializeTimes].
  - repeat split; reflexivity.
  - destruct (initializeDiscordBot_settled env s Hs) as (l & Hrun & Hl).
    unfold Proc.bind. rewrite Hrun.
    destruct (initializeTimes env n s) as [[r s'] effs] eqn:E.
    cbn in IH |- *. destruct IH as (IH1 & IH2 & IH3).
    destruct l; try discriminate Hl; cbn; auto.
Qed.

Lemma initializeTimes_succ env n s :
  Proc.state (initializeTimes env (S n) s)
  = Proc.state (initializeTimes env n (Proc.state (initializeDiscordBot env s)))
  /\ Proc.effects (initializeTimes env (S n) s)
     = (Proc.effects (initializeDiscordBot env s)
        ++ Proc.effects (initializeTimes env n (Proc.state (initializeDiscordBot env s))))%list.
Proof.
  cbn [initializeTimes]. unfold Proc.bind.
  pose proof (initializeDiscordBot_fulfilled env s) as Hf.
  destruct (initializeDiscordBot env s) as [[r s1] e1]. cbn in Hf. subst r.
  cbn. destruct (initializeTimes env n s1) as [[r2 s2] e2]. split; reflexivity.
Qed.

(** ** One call of sendDirectMessage *)

Lemma lazyInitialize_run env grace s :
  exists effs,
    lazyInitialize env grace s = (Fulfilled tt, atGate env grace s, effs)
    /\ actions effs = lazyInitActions env s.
Proof.
  unfold lazyInitialize, atGate, lazyInitActions.
  unfold Proc.bind at 1. unfold Proc.get.
  destruct (client s) as [c|] eqn:Hc.
  - eexists. split; reflexivity.
  - pose proof (initializeDiscordBot_fulfilled env s) as Hf.
    unfold Proc.bind, Proc.emit, Proc.await.
    destruct (initializeDiscordBot env s) as [[r s1] e1]. cbn in Hf. subst r.
    proc_cbn. eexists. split; [reflexivity|].
    actions_cbn. reflexivity.
Qed.

Lemma sendWhenReady_run others clk net uid st rs g :
  exists effs,
    sendWhenReady others clk net uid st rs g
    = (Fulfilled tt, afterDispatch others net (fresh uid st rs) g, effs)
    /\ actions effs
       = dispatchActions net uid
           (composeEmbed (discordBot applicationConfig) clk st rs) g.
Proof.
  unfold sendWhenReady, afterDispatch, dispatchActions.
  unfold Proc.bind at 1. unfold Proc.get.
  destruct (isReady g) eqn:Hr; cbn [negb].
  - unfold Proc.tryCatch.
    destruct (client g) as [c|] eqn:Hc.
    + destruct (sendDirectMessageInternal_run others clk net uid st rs g c Hc)
        as (effs & Hrun & Hact).
      rewrite Hrun. unfold outcome.
      destruct (failure net) as [msg|] eqn:Ef.
      * assert (Hd : delivers net = false).
        { destruct (delivers net) eqn:E; [|reflexivity].
          apply failure_delivers in E. congruence. }
        rewrite Hd. proc_cbn. eexists. split; [reflexivity|].
        actions_cbn. rewrite Hact. now rewrite List.app_nil_r.
      * assert (Hd : delivers net = true) by now apply failure_delivers.
        rewrite Hd. eexists. split; [reflexivity|]. exact Hact.
    + rewrite (sendDirectMessageInternal_no_client others clk net uid st rs g Hc).
      proc_cbn. eexists. split; reflexivity.
  - proc_cbn. eexists. split; reflexivity.
Qed.

Lemma sendDirectMessage_run env grace others clk net uid st rs s :
  exists effs,
    sendDirectMessage env grace others clk net uid st rs s
    = (Fulfilled tt,
       afterDispatch others net (fresh uid st rs) (atGate env grace s), effs)
    /\ actions effs
       = (lazyInitActions env s
          ++ dispatchActions net uid
               (composeEmbed (discordBot applicationConfig) clk st rs)
               (atGate env grace s))%list.
Proof.
  destruct (lazyInitialize_run env grace s) as (e1 & H1 & A1).
  destruct (sendWhenReady_run others clk net uid st rs (atGate env grace s))
    as (e2 & H2 & A2).
  unfold sendDirectMessage, Proc.bind. rewrite H1, H2.
  eexists. split; [reflexivity|].
  now rewrite actions_app, A1, A2.
Qed.

(** ** Console output apart *)

Lemma In_actions e effs : List.In e (actions effs) -> List.In e effs.
Proof. unfold actions. intros H. now apply List.filter_In in H. Qed.

Lemma drainTimers_actions effs :
  List.filter isDrainTimer (actions effs) = List.filter isDrainTimer effs.
Proof. apply filter_actions. now intros []. Qed.

Lemma drainTimers_attemptActions net uid embed :
  List.filter isDrainTimer (attemptActions net uid embed) = [].
Proof. unfold attemptActions. now destruct (fetchReply net). Qed.

(** ** Timers and attempts *)












(** ** Passes in a row *)

Lemma processMessageQueue_fulfilled others clk net s :
  Proc.result (processMessageQueue others clk net s) = Fulfilled tt.
Proof.
  destruct (isReady s) eqn:Hr;
    [|now rewrite processMessageQueue_idle by now left].
  destruct (messageQueue s) as [|m rest] eqn:Hq;
    [now rewrite processMessageQueue_idle by now right|].
  destruct (client s) as [c|] eqn:Hc.
  - destruct (processMessageQueue_run others clk net s c m rest Hr Hc Hq)
      as (effs & -> & _). reflexivity.
  - unfold processMessageQueue.
    unfold Proc.bind at 1. unfold Proc.get. rewrite Hr, Hq.
    cbn [negb orb List.length Nat.eqb].
    unfold Proc.bind at 1. unfold Proc.emit at 1.
    unfold Proc.bind at 1. unfold Proc.shift. rewrite Hq.
    unfold Proc.bind at 1. unfold Proc.setQueue at 1. unfold Proc.ret at 1.
    cbn [app]. fold (withQueue rest s).
    unfold Proc.bind at 1. unfold Proc.tryCatch. unfold Proc.bind at 1.
    rewrite (sendDirectMessageInternal_no_client others clk net _ _ _
               (withQueue rest s) Hc).
    destruct (retries m <? 3); reflexivity.
Qed.



Lemma drainPasses_fulfilled clk nets s :
  Proc.result (drainPasses clk nets s) = Fulfilled tt.
Proof.
  revert s. induction nets as [|net more IH]; intros s; cbn [drainPasses];
    [reflexivity|].
  unfold Proc.bind.
  pose proof (processMessageQueue_fulfilled quiet clk net s) as Hf.
  destruct (processMessageQueue quiet clk net s) as [[r s1] e1].
  cbn in Hf. subst r. specialize (IH s1).
  destruct (drainPasses clk more s1) as [[r2 s2] e2]. exact IH.
Qed.


Lemma afterAttempt_requeue net m s :
  delivers net = false -> (retries m <? 3) = true ->
  afterAttempt net m s = withQueue (retry m :: messageQueue s) s.
Proof. intros Hd Hlt. unfold afterAttempt. now rewrite Hd, Hlt. Qed.



Lemma retry_withRetries m : retry m = withRetries (retries m + 1) m.
Proof. reflexivity. Qed.





(** ** Calls with and without a session *)

Lemma atGate_session env grace s c : client s = Some c -> atGate env grace s = s.
Proof. intros Hc. unfold atGate. now rewrite Hc. Qed.

Lemma lazyInitActions_session env s c : client s = Some c -> lazyInitActions env s = [].
Proof. intros Hc. unfold lazyInitActions. now rewrite Hc. Qed.

Lemma bind_run {A B} (p : Proc A) (f : A -> Proc B) s a s1 e1 :
  p s = (Fulfilled a, s1, e1) ->
  Proc.state (Proc.bind p f s) = Proc.state (f a s1)
  /\ Proc.result (Proc.bind p f s) = Proc.result (f a s1)
  /\ Proc.effects (Proc.bind p f s) = (e1 ++ Proc.effects (f a s1))%list.
Proof.
  intros H. unfold Proc.bind. rewrite H.
  destruct (f a s1) as [[r s2] e2]. repeat split; reflexivity.
Qed.

Lemma usesConnection_app a b :
  usesConnection (a ++ b) = usesConnection a || usesConnection b.
Proof. apply List.existsb_app. Qed.

Lemma usesConnection_initialize env s :
  usesConnection (Proc.effects (initializeDiscordBot env s)) = false.
Proof.
  destruct (JS.truthy (DISCORD_BOT_TOKEN env)) eqn:Htok.
  - destruct (client s) as [c|] eqn:Hc.
    + destruct (initializeDiscordBot_settled env s) as (l & -> & Hl);
        [right; congruence|].
      now destruct l.
    + now rewrite (initializeDiscordBot_fresh env s Htok Hc).
  - destruct (initializeDiscordBot_settled env s) as (l & -> & Hl);
      [now left|].
    now destruct l.
Qed.

Lemma usesConnection_lazyInit env s : usesConnection (lazyInitActions env s) = false.
Proof.
  unfold lazyInitActions. destruct (client s); [reflexivity|].
  rewrite usesConnection_app, usesConnection_actions, usesConnection_initialize.
  reflexivity.
Qed.

Lemma grace_timers_only n :
  usesConnection (List.repeat (SetTimeout GraceCallback 1000) n) = false
  /\ List.filter isClientLogin (List.repeat (SetTimeout GraceCallback 1000) n) = []
  /\ List.filter isNewClient (List.repeat (SetTimeout GraceCallback 1000) n) = [].
Proof. induction n as [|n IH]; cbn; [repeat split | exact IH]. Qed.

(** One call without a token: nothing but the grace timer, and the item
    is queued. *)
Lemma sendDirectMessage_no_token env clk net uid st rs s :
  JS.truthy (DISCORD_BOT_TOKEN env) = false ->
  client s = None -> isReady s = false ->
  exists effs,
    sendDirectMessage env quiet quiet clk net uid st rs s
    = (Fulfilled tt, enqueue (fresh uid st rs) s, effs)
    /\ actions effs = [ SetTimeout GraceCallback 1000 ].
Proof.
  intros Htok Hc Hr.
  destruct (sendDirectMessage_run env quiet quiet clk net uid st rs s)
    as (effs & Hrun & Hact).
  destruct (initializeDiscordBot_settled env s (or_introl Htok))
    as (line & Hinit & Hline).
  assert (Hg : atGate env quiet s = s).
  { unfold atGate. now rewrite Hc, Hinit. }
  rewrite Hg in Hrun, Hact.
  unfold afterDispatch in Hrun. unfold dispatchActions in Hact.
  rewrite Hr in Hrun, Hact.
  unfold lazyInitActions in Hact. rewrite Hc, Hinit in Hact.
  exists effs. split; [exact Hrun|].
  rewrite Hact. destruct line; try discriminate Hline; reflexivity.
Qed.

(** * The claims *)

(** C1, as the code has it.  Without a token no session is created and
    the module never becomes ready, no login, fetch or send is made, and
    every call completes without throwing; but every call retries the
    initialisation, waits the grace period, and appends its item, with
    count 0, to the queue. *)
Theorem C1_missing_token_still_queues :
  forall env reqs s,
    JS.truthy (DISCORD_BOT_TOKEN env) = false ->
    client s = None -> isReady s = false ->
    let r := dispatchAll env reqs s in
    Proc.result r = Fulfilled tt
    /\ client (Proc.state r) = None
    /\ isReady (Proc.state r) = false
    /\ messageQueue (Proc.state r)
       = (messageQueue s ++ List.map requested reqs)%list
    /\ actions (Proc.effects r)
       = List.repeat (SetTimeout GraceCallback 1000) (List.length reqs)
    /\ usesConnection (Proc.effects r) = false
    /\ List.filter isClientLogin (Proc.effects r) = []
    /\ List.filter isNewClient (Proc.effects r) = [].
Proof.
  intros env reqs s Htok Hc Hr r. subst r.
  assert (Hmain :
    Proc.result (dispatchAll env reqs s) = Fulfilled tt
    /\ Proc.state (dispatchAll env reqs s)
       = withQueue (messageQueue s ++ List.map requested reqs) s
    /\ actions (Proc.effects (dispatchAll env reqs s))
       = List.repeat (SetTimeout GraceCallback 1000) (List.length reqs)).
  { revert s Hc Hr. induction reqs as [|q more IH]; intros s Hc Hr.
    - cbn. rewrite List.app_nil_r, withQueue_same. repeat split; reflexivity.
    - cbn [dispatchAll].
      destruct (sendDirectMessage_no_token env (reqClock q) (reqPlatform q)
                  (reqUser q) (reqStatus q) (reqReason q) s Htok Hc Hr)
        as (effs & Hrun & Hact).
      destruct (bind_run _ (fun _ => dispatchAll env more) s tt _ _ Hrun)
        as (Hs & Hres & He).
      destruct (IH (enqueue (fresh (reqUser q) (reqStatus q) (reqReason q)) s) Hc Hr)
        as (IH1 & IH2 & IH3).
      rewrite Hs, Hres, He, actions_app, Hact, IH1, IH2, IH3.
      repeat split.
      unfold enqueue, withQueue, requested.
      cbn [client isReady messageQueue List.map].
      now rewrite <- List.app_assoc. }
  destruct Hmain as (H1 & H2 & H3).
  rewrite H2. cbn [client isReady messageQueue withQueue].
  repeat split; try assumption.
  - rewrite <- usesConnection_actions, H3. apply grace_timers_only.
  - rewrite <- (filter_actions isClientLogin) by (now intros []).
    rewrite H3. apply grace_timers_only.
  - rewrite <- (filter_actions isNewClient) by (now intros []).
    rewrite H3. apply grace_timers_only.
Qed.

Lemma C1_witness :
  JS.truthy (DISCORD_BOT_TOKEN noToken) = false
  /\ messageQueue
       (Proc.state
          (dispatchAll noToken
             [request "u1" approved None; request "u2" denied (Some "late")]
             initialBot))
     = [fresh "u1" approved None; fresh "u2" denied (Some "late")].
Proof.
  split; [reflexivity|].
  apply (C1_missing_token_still_queues noToken
           [request "u1" approved None; request "u2" denied (Some "late")]
           initialBot);
    reflexivity.
Defined.

(** C1 as stated fails: without a token, one call adds an item to the
    queue. *)
Lemma C1_counterexample :
  JS.truthy (DISCORD_BOT_TOKEN noToken) = false
  /\ messageQueue
       (Proc.state
          (sendDirectMessage noToken quiet quiet (frozenAt 0) delivering
             "u1" approved None initialBot))
     <> messageQueue initialBot.
Proof. split; [reflexivity|]. vm_compute. discriminate. Qed.

(** C2. When the attempt on the head item fails and the item's retry
    count is below 3, the pass puts the item back with its count raised
    by one, at the head of the queue, ahead of every item queued at that
    moment (also those queued while the attempt was in flight), and arms
    a drain after 5000 ms times the new count. *)
Theorem C2_failed_attempt_requeued_at_head :
  forall others clk net s c m rest,
    isReady s = true -> client s = Some c -> messageQueue s = m :: rest ->
    delivers net = false -> retries m < 3 ->
    let r := processMessageQueue others clk net s in
    let queued := messageQueue (others (withQueue rest s)) in
    Proc.result r = Fulfilled tt
    /\ messageQueue (Proc.state r) = retry m :: queued
    /\ retries (retry m) = retries m + 1
    /\ userId (retry m) = userId m
    /\ status (retry m) = status m
    /\ reason (retry m) = reason m
    /\ List.In (SetTimeout DrainCallback (5000 * retries (retry m))) (Proc.effects r)
    /\ (others = quiet -> messageQueue (Proc.state r) = retry m :: rest).
Proof.
  intros others clk net s c m rest Hr Hc Hq Hd Hlt r queued. subst r queued.
  destruct (processMessageQueue_run others clk net s c m rest Hr Hc Hq)
    as (effs & Hrun & Hact).
  rewrite Hrun. unfold afterAttempt in *. unfold followUps in Hact.
  rewrite Hd in *.
  apply Z.ltb_lt in Hlt. rewrite Hlt in *.
  cbn [Proc.result Proc.state Proc.effects fst snd].
  repeat split.
  - apply In_actions. rewrite Hact. apply List.in_or_app. right.
    left. reflexivity.
  - intros ->. reflexivity.
Qed.

Lemma C2_witness :
  retries (fresh "u3" approved None) < 3
  /\ messageQueue
       (Proc.state
          (processMessageQueue quiet (frozenAt 0) failing
             (readyBot [fresh "u3" approved None; fresh "u4" denied None])))
     = [retry (fresh "u3" approved None); fresh "u4" denied None].
Proof.
  split; [reflexivity|].
  apply (C2_failed_attempt_requeued_at_head quiet (frozenAt 0) failing
           (readyBot [fresh "u3" approved None; fresh "u4" denied None])
           newClient (fresh "u3" approved None) [fresh "u4" denied None]);
    reflexivity.
Defined.






(** C5, as the code has it.  A call that finds the module not ready at
    its readiness check (after the lazy initialisation and its grace
    period, when there was no session) makes no send attempt and issues
    no fetch or send on the connection: it appends the item, with count
    0, to the queue and completes.  With a session present the check sees
    the state the call was made in, and the call does nothing else. *)
Theorem C5_not_ready_enqueues :
  forall env grace others clk net uid st rs s,
    isReady (atGate env grace s) = false ->
    let r := sendDirectMessage env grace others clk net uid st rs s in
    Proc.result r = Fulfilled tt
    /\ usesConnection (Proc.effects r) = false
    /\ attempts (Proc.effects r) = 0%nat
    /\ Proc.state r = enqueue (fresh uid st rs) (atGate env grace s)
    /\ messageQueue (Proc.state r)
       = (messageQueue (atGate env grace s) ++ [fresh uid st rs])%list
    /\ retries (fresh uid st rs) = 0
    /\ client (Proc.state r) = client (atGate env grace s)
    /\ (forall c, client s = Some c ->
          atGate env grace s = s /\ actions (Proc.effects r) = []).
Proof.
  intros env grace others clk net uid st rs s Hg r. subst r.
  destruct (sendDirectMessage_run env grace others clk net uid st rs s)
    as (effs & Hrun & Hact).
  unfold afterDispatch in Hrun. unfold dispatchActions in Hact.
  rewrite Hg in Hrun, Hact. rewrite List.app_nil_r in Hact.
  rewrite Hrun. cbn [Proc.result Proc.state Proc.effects fst snd].
  assert (Hu : usesConnection effs = false).
  { rewrite <- usesConnection_actions, Hact. apply usesConnection_lazyInit. }
  split; [reflexivity|]. split; [exact Hu|].
  split.
  { unfold attempts. unfold usesConnection in Hu.
    clear Hrun Hact. induction effs as [|e effs IH]; [reflexivity|].
    cbn in Hu |- *. apply Bool.orb_false_iff in Hu as [He Hrest].
    apply Bool.orb_false_iff in He as [He _]. rewrite He. now apply IH. }
  repeat split.
  - now apply atGate_session with (c := c).
  - rewrite Hact. now apply lazyInitActions_session with (c := c).
Qed.

Lemma C5_witness :
  isReady (atGate withToken quiet sessionBot) = false
  /\ messageQueue
       (Proc.state
          (sendDirectMessage withToken quiet quiet (frozenAt 0) delivering
             "u2" approved (Some "Great application") sessionBot))
     = [fresh "u2" approved (Some "Great application")].
Proof.
  split; [reflexivity|].
  apply (C5_not_ready_enqueues withToken quiet quiet (frozenAt 0) delivering
           "u2" approved (Some "Great application") sessionBot).
  reflexivity.
Defined.

(** C5 as stated fails: a first call, made with no session while the
    module is not ready, starts the login, and when the handshake
    completes within the grace period the call does attempt a send and
    queues nothing. *)
Lemma C5_counterexample :
  isReady initialBot = false
  /\ attempts
       (Proc.effects
          (sendDirectMessage withToken handshake quiet (frozenAt 0) delivering
             "u1" approved None initialBot))
     <> 0%nat
  /\ messageQueue
       (Proc.state
          (sendDirectMessage withToken handshake quiet (frozenAt 0) delivering
             "u1" approved None initialBot))
     = [].
Proof. split; [reflexivity|]. split; [vm_compute; discriminate | reflexivity]. Qed.



(** C7, as the code has it.  The colour is green for an approval and red
    for a denial.  The fields are the status and date fields, then one
    field labelled Staff Note (approval) or Reason (denial) exactly when
    the reason is a non-empty string, then the Important Information
    field exactly for approvals.  An absent or empty reason adds no
    field. *)
Theorem C7_payload_by_decision :
  forall cfg clk st rs,
    let e := composeEmbed cfg clk st rs in
    color e = Some (match st with approved => green | denied => red end)
    /\ fields e
       = ([statusField st; dateField clk] ++ reasonFields st rs ++ infoFields st)%list
    /\ Embed.countLabel "Staff Note" e
       = (if Status_eqb st approved && JS.truthy rs then 1 else 0)%nat
    /\ Embed.countLabel "Reason" e
       = (if Status_eqb st denied && JS.truthy rs then 1 else 0)%nat
    /\ Embed.countLabel "Important Information" e
       = (if Status_eqb st approved then 1 else 0)%nat
    /\ List.length (fields e)
       = (2 + (if JS.truthy rs then 1 else 0)
            + (if Status_eqb st approved then 1 else 0))%nat.
Proof.
  intros cfg clk st rs e. subst e.
  split; [apply composeEmbed_color|].
  split; [apply composeEmbed_fields|].
  unfold Embed.countLabel. rewrite composeEmbed_fields.
  unfold reasonFields, JS.truthy.
  destruct st, rs as [r|]; cbn; try (repeat split; reflexivity);
    destruct (String.eqb r ""); cbn; repeat split; reflexivity.
Qed.

(** C7 as stated fails: a reason that is present but empty adds no
    Staff Note field. *)
Lemma C7_counterexample :
  Embed.countLabel "Staff Note"
    (composeEmbed (discordBot applicationConfig) (frozenAt 0) approved (Some ""))
  <> 1%nat.
Proof. vm_compute. discriminate. Qed.

(** C8. With a session present, any number of calls of the initialiser
    leaves the state as it was (the same single session), creates no
    client and starts no login; and from any state, the state after n
    calls (n >= 1) is the state after one call. *)
Theorem C8_initialize_idempotent :
  forall env n s,
    (1 <= n)%nat ->
    Proc.state (initializeTimes env n s)
    = Proc.state (initializeDiscordBot env s)
    /\ forall c, client s = Some c ->
         Proc.state (initializeTimes env n s) = s
         /\ client (Proc.state (initializeTimes env n s)) = Some c
         /\ List.filter isClientLogin (Proc.effects (initializeTimes env n s)) = []
         /\ List.filter isNewClient (Proc.effects (initializeTimes env n s)) = [].
Proof.
  intros env n s Hn. split.
  - destruct n as [|n]; [lia|].
    destruct (initializeTimes_succ env n s) as [Hs _]. rewrite Hs.
    apply initializeTimes_settled, initializeDiscordBot_settles.
  - intros c Hc.
    assert (Hs : initSettled env s) by (right; congruence).
    destruct (initializeTimes_settled env n s Hs) as (H1 & H2 & H3).
    rewrite H1. repeat split; assumption.
Qed.

Lemma C8_witness :
  (1 <= 3)%nat
  /\ Proc.state (initializeTimes {| DISCORD_BOT_TOKEN := Some "token" |} 3 sessionBot)
     = Proc.state (initializeDiscordBot {| DISCORD_BOT_TOKEN := Some "token" |} sessionBot).
Proof.
  split; [lia|].
  apply (C8_initialize_idempotent {| DISCORD_BOT_TOKEN := Some "token" |} 3 sessionBot).
  lia.
Defined.





(** * Further properties *)

(** ** Sequences of calls, timers and events *)

Lemma processMessageQueue_state others clk net s :
  Proc.result (processMessageQueue others clk net s) = Fulfilled tt
  /\ Proc.state (processMessageQueue others clk net s) = afterPass others net s.
Proof.
  split; [apply processMessageQueue_fulfilled|].
  unfold afterPass.
  destruct (isReady s) eqn:Hr;
    [|now rewrite processMessageQueue_idle by now left].
  destruct (messageQueue s) as [|m rest] eqn:Hq;
    [now rewrite processMessageQueue_idle by now right|].
  destruct (client s) as [c|] eqn:Hc.
  - destruct (processMessageQueue_run others clk net s c m rest Hr Hc Hq)
      as (effs & -> & _). reflexivity.
  - unfold processMessageQueue.
    unfold Proc.bind at 1. unfold Proc.get. rewrite Hr, Hq.
    cbn [negb orb List.length Nat.eqb].
    unfold Proc.bind at 1. unfold Proc.emit at 1.
    unfold Proc.bind at 1. unfold Proc.shift. rewrite Hq.
    unfold Proc.bind at 1. unfold Proc.setQueue at 1. unfold Proc.ret at 1.
    cbn [app]. fold (withQueue rest s).
    unfold Proc.bind at 1. unfold Proc.tryCatch. unfold Proc.bind at 1.
    rewrite (sendDirectMessageInternal_no_client others clk net _ _ _
               (withQueue rest s) Hc).
    destruct (retries m <? 3); reflexivity.
Qed.

Lemma bind_get {A} (k : Bot -> Proc A) s :
  Proc.bind Proc.get k s = k s s.
Proof.
  unfold Proc.bind, Proc.get. destruct (k s s) as [[r s2] e2]. reflexivity.
Qed.

Lemma forceProcessQueue_state others clk net s :
  Proc.result (forceProcessQueue others clk net s) = Fulfilled tt
  /\ Proc.state (forceProcessQueue others clk net s) = afterPass others net s.
Proof.
  unfold forceProcessQueue. rewrite bind_get.
  destruct (isReady s) eqn:Hr.
  - apply processMessageQueue_state.
  - unfold afterPass. rewrite Hr. split; reflexivity.
Qed.

Lemma intervalCallback_state others clk net s :
  Proc.result (intervalCallback others clk net s) = Fulfilled tt
  /\ Proc.state (intervalCallback others clk net s) = afterPass others net s.
Proof.
  unfold intervalCallback. rewrite bind_get.
  destruct (isReady s) eqn:Hr; cbn [andb].
  - destruct (messageQueue s) as [|m rest] eqn:Hq; cbn [List.length Nat.ltb Nat.leb].
    + unfold afterPass. rewrite Hr, Hq. split; reflexivity.
    + destruct (processMessageQueue_state others clk net s) as [Hres Hst].
      unfold Proc.bind, Proc.emit.
      destruct (processMessageQueue others clk net s) as [[r s1] e1].
      cbn in Hres, Hst |- *. subst. split; reflexivity.
  - unfold afterPass. rewrite Hr. split; reflexivity.
Qed.

Lemma onReady_state tag others clk net s :
  Proc.result (onReady tag others clk net s) = Fulfilled tt
  /\ Proc.state (onReady tag others clk net s)
     = afterPass others net (setReady true s).
Proof.
  unfold onReady. unfold Proc.bind, Proc.emit, Proc.setIsReady.
  fold (setReady true s).
  destruct (processMessageQueue_state others clk net (setReady true s))
    as [Hres Hst].
  destruct (processMessageQueue others clk net (setReady true s)) as [[r s1] e1].
  cbn in Hres, Hst |- *. subst. split; reflexivity.
Qed.

Lemma step_state env x s :
  Proc.result (step env x s) = Fulfilled tt
  /\ Proc.state (step env x s)
     = match x with
       | CallInitialize => Proc.state (initializeDiscordBot env s)
       | CallSend clk net uid st rs =>
           afterDispatch quiet net (fresh uid st rs) (atGate env quiet s)
       | CallForce clk net | TimerDrain clk net | TimerInterval clk net =>
           afterPass quiet net s
       | EventReady tag clk net =>
           match client s with
           | Some _ => afterPass quiet net (setReady true s)
           | None => s
           end
       | EventError _ | EventDisconnect =>
           match client s with
           | Some _ => setReady false s
           | None => s
           end
       end.
Proof.
  destruct x as [|clk net uid st rs|clk net|clk net|clk net|tag clk net|err|];
    cbn [step].
  - split; [apply initializeDiscordBot_fulfilled | reflexivity].
  - destruct (sendDirectMessage_run env quiet quiet clk net uid st rs s)
      as (effs & -> & _). split; reflexivity.
  - apply forceProcessQueue_state.
  - apply processMessageQueue_state.
  - apply intervalCallback_state.
  - unfold whenClient. rewrite bind_get.
    destruct (client s); [apply onReady_state | split; reflexivity].
  - unfold whenClient. rewrite bind_get.
    destruct (client s); split; reflexivity.
  - unfold whenClient. rewrite bind_get.
    destruct (client s); split; reflexivity.
Qed.

Lemma steps_cons env x xs s :
  Proc.result (steps env (x :: xs) s)
  = Proc.result (steps env xs (Proc.state (step env x s)))
  /\ Proc.state (steps env (x :: xs) s)
     = Proc.state (steps env xs (Proc.state (step env x s)))
  /\ Proc.effects (steps env (x :: xs) s)
     = (Proc.effects (step env x s)
        ++ Proc.effects (steps env xs (Proc.state (step env x s))))%list.
Proof.
  cbn [steps]. destruct (step_state env x s) as [Hres _].
  destruct (step env x s) as [[r s1] e1] eqn:E. cbn in Hres. subst r.
  destruct (bind_run (step env x) (fun _ => steps env xs) s tt s1 e1 E)
    as (H1 & H2 & H3).
  cbn [Proc.state Proc.effects fst snd]. repeat split; assumption.
Qed.

Lemma retry_bounded m :
  0 <= retries m <= 3 -> (retries m <? 3) = true -> 0 <= retries (retry m) <= 3.
Proof. intros H Hlt. apply Z.ltb_lt in Hlt. cbn [retries retry]. lia. Qed.

Lemma afterAttempt_retriesBounded net m s :
  0 <= retries m <= 3 -> retriesBounded s -> retriesBounded (afterAttempt net m s).
Proof.
  intros Hm Hs. unfold afterAttempt.
  destruct (delivers net); [assumption|].
  destruct (retries m <? 3) eqn:Hlt; [|assumption].
  unfold retriesBounded. cbn [messageQueue withQueue].
  constructor; [now apply retry_bounded | exact Hs].
Qed.

Lemma afterPass_retriesBounded others net s :
  (forall t, retriesBounded t -> retriesBounded (others t)) ->
  retriesBounded s -> retriesBounded (afterPass others net s).
Proof.
  intros Ho Hs. unfold afterPass.
  destruct (isReady s); [|assumption].
  destruct (messageQueue s) as [|m rest] eqn:Hq; [assumption|].
  unfold retriesBounded in Hs. rewrite Hq in Hs.
  inversion Hs as [|? ? Hm Hrest]; subst.
  destruct (client s).
  - apply afterAttempt_retriesBounded; [assumption|].
    apply Ho. exact Hrest.
  - destruct (retries m <? 3) eqn:Hlt; unfold retriesBounded;
      cbn [messageQueue withQueue]; [|assumption].
    constructor; [now apply retry_bounded | assumption].
Qed.

Lemma enqueue_retriesBounded uid st rs s :
  retriesBounded s -> retriesBounded (enqueue (fresh uid st rs) s).
Proof.
  intros Hs. unfold retriesBounded, enqueue. cbn [messageQueue withQueue].
  apply List.Forall_app. split; [exact Hs|].
  constructor; [cbn; lia | constructor].
Qed.

Lemma initializeDiscordBot_queue env s :
  messageQueue (Proc.state (initializeDiscordBot env s)) = messageQueue s
  /\ isReady (Proc.state (initializeDiscordBot env s)) = isReady s
  /\ (client s <> None ->
      client (Proc.state (initializeDiscordBot env s)) = client s)
  /\ (client (Proc.state (initializeDiscordBot env s)) = None -> client s = None).
Proof.
  destruct (JS.truthy (DISCORD_BOT_TOKEN env)) eqn:Htok.
  - destruct (client s) as [c|] eqn:Hc.
    + destruct (initializeDiscordBot_settled env s) as (l & -> & _);
        [right; congruence|]. cbn. rewrite Hc. repeat split; congruence.
    + rewrite (initializeDiscordBot_fresh env s Htok Hc). cbn.
      repeat split; congruence.
  - destruct (initializeDiscordBot_settled env s) as (l & -> & _);
      [now left|]. cbn. repeat split; auto.
Qed.

Lemma afterDispatch_retriesBounded others net uid st rs g :
  (forall t, retriesBounded t -> retriesBounded (others t)) ->
  retriesBounded g -> retriesBounded (afterDispatch others net (fresh uid st rs) g).
Proof.
  intros Ho Hg. unfold afterDispatch.
  destruct (isReady g); [|now apply enqueue_retriesBounded].
  destruct (client g); [|now apply enqueue_retriesBounded].
  destruct (delivers net); [now apply Ho|].
  apply enqueue_retriesBounded. now apply Ho.
Qed.

Lemma atGate_quiet env s :
  atGate env quiet s
  = match client s with
    | Some _ => s
    | None => Proc.state (initializeDiscordBot env s)
    end.
Proof. reflexivity. Qed.

Lemma step_retriesBounded env x s :
  retriesBounded s -> retriesBounded (Proc.state (step env x s)).
Proof.
  intros Hs. destruct (step_state env x s) as [_ ->].
  destruct x as [|clk net uid st rs|clk net|clk net|clk net|tag clk net|err|].
  - unfold retriesBounded.
    now rewrite (proj1 (initializeDiscordBot_queue env s)).
  - apply afterDispatch_retriesBounded; [auto|].
    rewrite atGate_quiet. destruct (client s); [assumption|].
    unfold retriesBounded.
    now rewrite (proj1 (initializeDiscordBot_queue env s)).
  - apply afterPass_retriesBounded; auto.
  - apply afterPass_retriesBounded; auto.
  - apply afterPass_retriesBounded; auto.
  - destruct (client s); [|assumption].
    apply afterPass_retriesBounded; auto.
  - destruct (client s); assumption.
  - destruct (client s); assumption.
Qed.

Lemma afterAttempt_client net m s :
  client (afterAttempt net m s) = client s
  /\ isReady (afterAttempt net m s) = isReady s.
Proof.
  unfold afterAttempt. destruct (delivers net); [split; reflexivity|].
  destruct (retries m <? 3); split; reflexivity.
Qed.

Lemma afterPass_client net s :
  client (afterPass quiet net s) = client s
  /\ isReady (afterPass quiet net s) = isReady s.
Proof.
  unfold afterPass. destruct (isReady s) eqn:Hr; [|now split].
  destruct (messageQueue s) as [|m rest]; [now split|].
  destruct (client s) eqn:Hc.
  - destruct (afterAttempt_client net m (quiet (withQueue rest s))) as [-> ->].
    cbn. now split.
  - destruct (retries m <? 3); cbn; now split.
Qed.

Lemma afterDispatch_client net m g :
  client (afterDispatch quiet net m g) = client g
  /\ isReady (afterDispatch quiet net m g) = isReady g.
Proof.
  unfold afterDispatch. destruct (isReady g) eqn:Hr; [|now split].
  destruct (client g) eqn:Hc; [|now split].
  destruct (delivers net); cbn; now split.
Qed.

(** A step keeps the session it finds, and leaves a ready module with a
    session. *)
Lemma step_session env x s :
  (forall c, client s = Some c -> client (Proc.state (step env x s)) = Some c)
  /\ (readyHasSession s -> readyHasSession (Proc.state (step env x s))).
Proof.
  destruct (step_state env x s) as [_ ->].
  destruct x as [|clk net uid st rs|clk net|clk net|clk net|tag clk net|err|].
  - destruct (initializeDiscordBot_queue env s) as (_ & Hr & Hc & Hn). split.
    + intros c E. rewrite Hc; congruence.
    + unfold readyHasSession. rewrite Hr. intros H1 H2 H3. apply (H1 H2). auto.
  - destruct (afterDispatch_client net (fresh uid st rs) (atGate env quiet s))
      as [Hc' Hr'].
    unfold readyHasSession. rewrite Hc', Hr', atGate_quiet.
    destruct (initializeDiscordBot_queue env s) as (_ & Hr & Hc & Hn). split.
    + intros c E. now rewrite E.
    + destruct (client s) eqn:E; [intros; congruence|]. cbv beta iota.
      rewrite Hr. intros H1 H2 H3. apply (H1 H2). reflexivity.
  - destruct (afterPass_client net s) as [Hc Hr]. unfold readyHasSession.
    rewrite Hc, Hr. split; auto.
  - destruct (afterPass_client net s) as [Hc Hr]. unfold readyHasSession.
    rewrite Hc, Hr. split; auto.
  - destruct (afterPass_client net s) as [Hc Hr]. unfold readyHasSession.
    rewrite Hc, Hr. split; auto.
  - destruct (client s) as [c0|] eqn:E.
    + destruct (afterPass_client net (setReady true s)) as [Hc Hr].
      unfold readyHasSession. rewrite Hc, Hr. cbn [client setReady]. rewrite E.
      split; [auto | congruence].
    + split; [congruence | auto].
  - destruct (client s) as [c0|] eqn:E.
    + unfold readyHasSession. cbn. rewrite E. split; [auto | congruence].
    + split; [congruence | auto].
  - destruct (client s) as [c0|] eqn:E.
    + unfold readyHasSession. cbn. rewrite E. split; [auto | congruence].
    + split; [congruence | auto].
Qed.

(** X1. No sequence of calls of the exported functions, timer callbacks
    and client events ever throws: every one of them completes. *)
Theorem X1_module_never_throws :
  forall env xs s, Proc.result (steps env xs s) = Fulfilled tt.
Proof.
  intros env xs. induction xs as [|x xs IH]; intros s; [reflexivity|].
  destruct (steps_cons env x xs s) as (-> & _ & _). apply IH.
Qed.

(** X2. Readiness implies a session: started in a state where a ready
    module has a session (the initial state is one), the module is never
    ready without a session, whatever is called and whatever events
    arrive. *)
Theorem X2_ready_implies_session :
  forall env xs s,
    readyHasSession s -> readyHasSession (Proc.state (steps env xs s)).
Proof.
  intros env xs. induction xs as [|x xs IH]; intros s Hs; [exact Hs|].
  destruct (steps_cons env x xs s) as (_ & -> & _).
  apply IH. now apply step_session.
Qed.

Lemma X2_witness :
  readyHasSession initialBot
  /\ readyHasSession
       (Proc.state
          (steps withToken
             [ CallSend (frozenAt 0) delivering "u1" approved None;
               EventReady (Some "Aura#0001") (frozenAt 1000) delivering;
               EventDisconnect ]
             initialBot)).
Proof.
  assert (H : readyHasSession initialBot) by (intros H; discriminate H).
  split; [exact H|].
  apply (X2_ready_implies_session withToken
           [ CallSend (frozenAt 0) delivering "u1" approved None;
             EventReady (Some "Aura#0001") (frozenAt 1000) delivering;
             EventDisconnect ]
           initialBot H).
Defined.

(** X3. The retry count of every queued item stays between 0 and 3:
    started from a queue where that holds (the empty queue is one), it
    holds after any sequence of calls, timer callbacks and events. *)
Theorem X3_queued_retries_bounded :
  forall env xs s,
    retriesBounded s -> retriesBounded (Proc.state (steps env xs s)).
Proof.
  intros env xs. induction xs as [|x xs IH]; intros s Hs; [exact Hs|].
  destruct (steps_cons env x xs s) as (_ & -> & _).
  apply IH. now apply step_retriesBounded.
Qed.

Lemma X3_witness :
  retriesBounded (readyBot [fresh "u3" denied None])
  /\ retriesBounded
       (Proc.state
          (steps withToken
             [ TimerDrain (frozenAt 0) failing; TimerDrain (frozenAt 1000) failing ]
             (readyBot [fresh "u3" denied None]))).
Proof.
  assert (H : retriesBounded (readyBot [fresh "u3" denied None])).
  { repeat constructor; discriminate. }
  split; [exact H|].
  apply (X3_queued_retries_bounded withToken
           [ TimerDrain (frozenAt 0) failing; TimerDrain (frozenAt 1000) failing ]
           (readyBot [fresh "u3" denied None]) H).
Defined.

(** X4. The session is created once and then kept: a session that
    exists is still the same session after any sequence of calls, timer
    callbacks and events, so the client is never replaced or dropped. *)
Theorem X4_session_never_replaced :
  forall env xs s c,
    client s = Some c -> client (Proc.state (steps env xs s)) = Some c.
Proof.
  intros env xs. induction xs as [|x xs IH]; intros s c Hc; [exact Hc|].
  destruct (steps_cons env x xs s) as (_ & -> & _).
  apply IH. now apply step_session.
Qed.

Lemma X4_witness :
  client sessionBot = Some newClient
  /\ client
       (Proc.state
          (steps withToken
             [ CallInitialize; EventError "boom"; CallInitialize;
               CallSend (frozenAt 0) delivering "u1" approved None ]
             sessionBot))
     = Some newClient.
Proof.
  split; [reflexivity|].
  apply (X4_session_never_replaced withToken
           [ CallInitialize; EventError "boom"; CallInitialize;
             CallSend (frozenAt 0) delivering "u1" approved None ]
           sessionBot newClient).
  reflexivity.
Defined.

Lemma sendsOf_cons x xs : sendsOf (x :: xs) = (sendsOf [x] ++ sendsOf xs)%list.
Proof. unfold sendsOf. cbn [List.flat_map]. now rewrite List.app_nil_r. Qed.

Lemma step_inert env x s :
  JS.truthy (DISCORD_BOT_TOKEN env) = false ->
  client s = None -> isReady s = false ->
  exists effs,
    step env x s
    = (Fulfilled tt, withQueue (messageQueue s ++ sendsOf [x]) s, effs)
    /\ actions effs
       = List.repeat (SetTimeout GraceCallback 1000) (List.length (sendsOf [x])).
Proof.
  intros Htok Hc Hr.
  destruct x as [|clk net uid st rs|clk net|clk net|clk net|tag clk net|err|];
    cbn [step sendsOf List.flat_map app List.length List.repeat];
    rewrite ?List.app_nil_r, ?withQueue_same.
  - destruct (initializeDiscordBot_settled env s (or_introl Htok))
      as (line & -> & Hline).
    eexists. split; [reflexivity|].
    destruct line; try discriminate Hline; reflexivity.
  - apply (sendDirectMessage_no_token env clk net uid st rs s Htok Hc Hr).
  - unfold forceProcessQueue. rewrite bind_get, Hr. now exists [].
  - rewrite processMessageQueue_idle by now left. now exists [].
  - unfold intervalCallback. rewrite bind_get, Hr. now exists [].
  - unfold whenClient. rewrite bind_get, Hc. now exists [].
  - unfold whenClient. rewrite bind_get, Hc. now exists [].
  - unfold whenClient. rewrite bind_get, Hc. now exists [].
Qed.

(** X5. Without a token the whole module is inert except for its queue:
    whatever is called, and whatever timers fire, no session is created,
    the module never becomes ready, and the only effects besides console
    output are the grace timers of the calls of [sendDirectMessage]: no
    client is built, no login, fetch or send is made, no drain is
    scheduled.  The queue only grows, by the item of each call, in call
    order. *)
Theorem X5_no_token_only_queues :
  forall env xs s,
    JS.truthy (DISCORD_BOT_TOKEN env) = false ->
    client s = None -> isReady s = false ->
    Proc.state (steps env xs s) = withQueue (messageQueue s ++ sendsOf xs) s
    /\ actions (Proc.effects (steps env xs s))
       = List.repeat (SetTimeout GraceCallback 1000) (List.length (sendsOf xs))
    /\ usesConnection (Proc.effects (steps env xs s)) = false.
Proof.
  intros env xs s Htok Hc Hr.
  assert (Hmain :
    Proc.state (steps env xs s) = withQueue (messageQueue s ++ sendsOf xs) s
    /\ actions (Proc.effects (steps env xs s))
       = List.repeat (SetTimeout GraceCallback 1000) (List.length (sendsOf xs))).
  { revert s Hc Hr. induction xs as [|x xs IH]; intros s Hc Hr.
    - cbn. rewrite List.app_nil_r, withQueue_same. split; reflexivity.
    - destruct (steps_cons env x xs s) as (_ & -> & ->).
      destruct (step_inert env x s Htok Hc Hr) as (effs & Hrun & Hact).
      rewrite Hrun. cbn [Proc.state Proc.effects fst snd].
      destruct (IH (withQueue (messageQueue s ++ sendsOf [x]) s) Hc Hr)
        as [IHs IHe].
      rewrite IHs, actions_app, Hact, IHe.
      rewrite (sendsOf_cons x xs).
      cbn [messageQueue withQueue client isReady].
      rewrite <- List.app_assoc, List.length_app, List.repeat_app.
      split; reflexivity. }
  destruct Hmain as [H1 H2]. repeat split; try assumption.
  rewrite <- usesConnection_actions, H2. apply grace_timers_only.
Qed.

Lemma X5_witness :
  JS.truthy (DISCORD_BOT_TOKEN noToken) = false
  /\ Proc.state
       (steps noToken
          [ CallSend (frozenAt 0) delivering "u1" approved None;
            CallForce (frozenAt 5) delivering;
            CallInitialize;
            TimerDrain (frozenAt 9) delivering ]
          initialBot)
     = withQueue [fresh "u1" approved None] initialBot.
Proof.
  split; [reflexivity|].
  apply (X5_no_token_only_queues noToken
           [ CallSend (frozenAt 0) delivering "u1" approved None;
             CallForce (frozenAt 5) delivering;
             CallInitialize;
             TimerDrain (frozenAt 9) delivering ]
           initialBot);
    reflexivity.
Defined.

(** ** Passes and their payloads *)

Lemma sent_app a b : sent (a ++ b) = (sent a ++ sent b)%list.
Proof. apply List.flat_map_app. Qed.

Lemma sent_actions effs : sent (actions effs) = sent effs.
Proof.
  unfold sent, actions.
  induction effs as [|e effs IH]; cbn; [reflexivity|].
  destruct e; cbn; rewrite ?IH; reflexivity.
Qed.

Lemma sent_followUps net m : sent (followUps net m) = [].
Proof.
  unfold followUps. destruct (delivers net); [reflexivity|].
  now destruct (retries m <? 3).
Qed.

Lemma sent_attemptActions net uid embed :
  sent (attemptActions net uid embed)
  = match fetchReply net with FetchUser => [ (uid, embed) ] | _ => [] end.
Proof. unfold attemptActions. now destruct (fetchReply net). Qed.


Lemma drainTimers_followUps net m :
  List.filter isDrainTimer (followUps net m) = followUps net m.
Proof.
  unfold followUps. destruct (delivers net); [reflexivity|].
  now destruct (retries m <? 3).
Qed.

Lemma drainTimers_pass effs net uid embed m :
  actions effs = (attemptActions net uid embed ++ followUps net m)%list ->
  List.filter isDrainTimer effs = followUps net m.
Proof.
  intros H. rewrite <- drainTimers_actions, H, List.filter_app.
  now rewrite drainTimers_attemptActions, drainTimers_followUps.
Qed.

(** X6. Every cause of failure is retried alike: whatever made the
    attempt on the head item fail (a fetch or send error of any message, a
    timeout of either leg, a missing user), the pass leaves the same
    state and arms the same drain timers. *)
Theorem X6_failures_retried_alike :
  forall others clk net1 net2 s c m rest,
    isReady s = true -> client s = Some c -> messageQueue s = m :: rest ->
    delivers net1 = false -> delivers net2 = false ->
    Proc.state (processMessageQueue others clk net1 s)
    = Proc.state (processMessageQueue others clk net2 s)
    /\ List.filter isDrainTimer (Proc.effects (processMessageQueue others clk net1 s))
       = List.filter isDrainTimer (Proc.effects (processMessageQueue others clk net2 s)).
Proof.
  intros others clk net1 net2 s c m rest Hr Hc Hq H1 H2.
  destruct (processMessageQueue_run others clk net1 s c m rest Hr Hc Hq)
    as (e1 & R1 & A1).
  destruct (processMessageQueue_run others clk net2 s c m rest Hr Hc Hq)
    as (e2 & R2 & A2).
  rewrite R1, R2. cbn [Proc.state Proc.effects fst snd].
  rewrite (drainTimers_pass _ _ _ _ _ A1), (drainTimers_pass _ _ _ _ _ A2).
  unfold afterAttempt, followUps. rewrite H1, H2. split; reflexivity.
Qed.

Lemma X6_witness :
  delivers failing = false /\ delivers fetchTimesOut = false
  /\ Proc.state
       (processMessageQueue quiet (frozenAt 0) failing
          (readyBot [fresh "u3" approved None]))
     = Proc.state
         (processMessageQueue quiet (frozenAt 0) fetchTimesOut
            (readyBot [fresh "u3" approved None])).
Proof.
  split; [reflexivity|]. split; [reflexivity|].
  apply (X6_failures_retried_alike quiet (frozenAt 0) failing fetchTimesOut
           (readyBot [fresh "u3" approved None]) newClient
           (fresh "u3" approved None) []);
    reflexivity.
Defined.





Lemma drainPasses_cons_effects clk net more s c m rest :
  isReady s = true -> client s = Some c -> messageQueue s = m :: rest ->
  sent (Proc.effects (drainPasses clk (net :: more) s))
  = (match fetchReply net with FetchUser => [ payloadOf clk m ] | _ => [] end
     ++ sent (Proc.effects
                (drainPasses clk more (afterAttempt net m (withQueue rest s)))))%list
  /\ List.filter isDrainTimer (Proc.effects (drainPasses clk (net :: more) s))
     = (followUps net m
        ++ List.filter isDrainTimer
             (Proc.effects
                (drainPasses clk more (afterAttempt net m (withQueue rest s)))))%list.
Proof.
  intros Hr Hc Hq. cbn [drainPasses].
  destruct (processMessageQueue_run quiet clk net s c m rest Hr Hc Hq)
    as (effs & Hrun & Hact).
  change (quiet (withQueue rest s)) with (withQueue rest s) in Hrun.
  destruct (bind_run _ (fun _ => drainPasses clk more) s tt _ _ Hrun)
    as (_ & _ & ->).
  rewrite sent_app, List.filter_app, (drainTimers_pass _ _ _ _ _ Hact).
  rewrite <- (sent_actions effs), Hact, sent_app, sent_followUps,
    sent_attemptActions, List.app_nil_r.
  split; reflexivity.
Qed.



(** X10. The backoff schedule of one item.  Over the four failing passes
    of an item queued with count 0 the drains armed are, in order: 5000
    and 1000 ms, 10000 and 1000 ms, 15000 and 1000 ms, and after the
    last failure the pacing 1000 ms only: three backoff drains of 5, 10
    and 15 seconds, and seven drains in all. *)
Theorem X10_backoff_schedule :
  forall clk nets s c m rest,
    isReady s = true -> client s = Some c -> messageQueue s = m :: rest ->
    retries m = 0 -> List.length nets = 4%nat -> List.Forall fails nets ->
    List.filter isDrainTimer (Proc.effects (drainPasses clk nets s))
    = [ SetTimeout DrainCallback 5000; SetTimeout DrainCallback 1000;
        SetTimeout DrainCallback 10000; SetTimeout DrainCallback 1000;
        SetTimeout DrainCallback 15000; SetTimeout DrainCallback 1000;
        SetTimeout DrainCallback 1000 ].
Proof.
  intros clk nets s c m rest Hr Hc Hq Hm Hlen Hf.
  destruct nets as [|n1 [|n2 [|n3 [|n4 [|n5 more]]]]]; try discriminate Hlen.
  inversion Hf as [|? ? F1 Hf1]; subst.
  inversion Hf1 as [|? ? F2 Hf2]; subst.
  inversion Hf2 as [|? ? F3 Hf3]; subst.
  inversion Hf3 as [|? ? F4 _]; subst.
  unfold fails in F1, F2, F3, F4.
  destruct m as [u st rs k]. cbn [retries] in Hm. subst k.
  set (m0 := {| userId := u; status := st; reason := rs; retries := 0 |}) in *.
  set (s1 := withQueue (retry m0 :: rest) (withQueue rest s)).
  set (s2 := withQueue (retry (retry m0) :: rest) (withQueue rest s1)).
  set (s3 := withQueue (retry (retry (retry m0)) :: rest) (withQueue rest s2)).
  destruct (drainPasses_cons_effects clk n1 [n2; n3; n4] s c m0 rest Hr Hc Hq)
    as [_ ->].
  rewrite (afterAttempt_requeue n1 m0 (withQueue rest s) F1 eq_refl).
  change (withQueue (retry m0 :: messageQueue (withQueue rest s)) (withQueue rest s))
    with s1.
  destruct (drainPasses_cons_effects clk n2 [n3; n4] s1 c (retry m0) rest
              Hr Hc eq_refl) as [_ ->].
  rewrite (afterAttempt_requeue n2 (retry m0) (withQueue rest s1) F2 eq_refl).
  change (withQueue (retry (retry m0) :: messageQueue (withQueue rest s1))
            (withQueue rest s1)) with s2.
  destruct (drainPasses_cons_effects clk n3 [n4] s2 c (retry (retry m0)) rest
              Hr Hc eq_refl) as [_ ->].
  rewrite (afterAttempt_requeue n3 (retry (retry m0)) (withQueue rest s2) F3 eq_refl).
  change (withQueue (retry (retry (retry m0)) :: messageQueue (withQueue rest s2))
            (withQueue rest s2)) with s3.
  destruct (drainPasses_cons_effects clk n4 [] s3 c (retry (retry (retry m0))) rest
              Hr Hc eq_refl) as [_ ->].
  unfold followUps. rewrite F1, F2, F3, F4. reflexivity.
Qed.

Lemma X10_witness :
  retries (fresh "u3" denied None) = 0
  /\ List.filter isDrainTimer
       (Proc.effects
          (drainPasses (frozenAt 0) [failing; failing; failing; failing]
             (readyBot [fresh "u3" denied None])))
     = [ SetTimeout DrainCallback 5000; SetTimeout DrainCallback 1000;
         SetTimeout DrainCallback 10000; SetTimeout DrainCallback 1000;
         SetTimeout DrainCallback 15000; SetTimeout DrainCallback 1000;
         SetTimeout DrainCallback 1000 ].
Proof.
  split; [reflexivity|].
  apply (X10_backoff_schedule (frozenAt 0) [failing; failing; failing; failing]
           (readyBot [fresh "u3" denied None]) newClient
           (fresh "u3" denied None) []);
    try reflexivity.
  repeat constructor.
Defined.



(** ** Until the ready event *)

Lemma step_gated env x s :
  isEventReady x = false -> isReady s = false ->
  isReady (Proc.state (step env x s)) = false
  /\ messageQueue (Proc.state (step env x s))
     = (messageQueue s ++ sendsOf [x])%list
  /\ usesConnection (Proc.effects (step env x s)) = false.
Proof.
  intros Hx Hr.
  destruct x as [|clk net uid st rs|clk net|clk net|clk net|tag clk net|err|];
    try discriminate Hx;
    cbn [step sendsOf List.flat_map app]; rewrite ?List.app_nil_r.
  - destruct (initializeDiscordBot_queue env s) as (Hq & Hr' & _).
    rewrite Hq, Hr', usesConnection_initialize. repeat split; assumption.
  - destruct (sendDirectMessage_run env quiet quiet clk net uid st rs s)
      as (effs & -> & Hact).
    cbn [Proc.state Proc.effects fst snd].
    assert (Hg : isReady (atGate env quiet s) = false
                 /\ messageQueue (atGate env quiet s) = messageQueue s).
    { rewrite atGate_quiet. destruct (client s); [now split|].
      destruct (initializeDiscordBot_queue env s) as (Hq & Hr' & _).
      now rewrite Hq, Hr'. }
    destruct Hg as [Hg Hgq].
    unfold afterDispatch. unfold dispatchActions in Hact.
    rewrite Hg in Hact |- *. rewrite List.app_nil_r in Hact.
    cbn [isReady messageQueue enqueue withQueue]. rewrite Hg, Hgq.
    repeat split.
    rewrite <- usesConnection_actions, Hact. apply usesConnection_lazyInit.
  - unfold forceProcessQueue. rewrite bind_get, Hr. repeat split; assumption.
  - rewrite processMessageQueue_idle by now left. repeat split; assumption.
  - unfold intervalCallback. rewrite bind_get, Hr. repeat split; assumption.
  - unfold whenClient. rewrite bind_get.
    destruct (client s); repeat split; assumption.
  - unfold whenClient. rewrite bind_get.
    destruct (client s); repeat split; assumption.
Qed.

Lemma steps_gated env xs :
  forall s,
    List.forallb (fun x => negb (isEventReady x)) xs = true ->
    isReady s = false ->
    isReady (Proc.state (steps env xs s)) = false
    /\ messageQueue (Proc.state (steps env xs s))
       = (messageQueue s ++ sendsOf xs)%list
    /\ usesConnection (Proc.effects (steps env xs s)) = false.
Proof.
  induction xs as [|x xs IH]; intros s Hxs Hr.
  - cbn. now rewrite List.app_nil_r.
  - cbn [List.forallb] in Hxs. apply Bool.andb_true_iff in Hxs as [Hx Hxs].
    apply Bool.negb_true_iff in Hx.
    destruct (steps_cons env x xs s) as (_ & -> & ->).
    destruct (step_gated env x s Hx Hr) as (H1 & H2 & H3).
    destruct (IH _ Hxs H1) as (I1 & I2 & I3).
    rewrite I1, I2, H2, usesConnection_app, H3, I3, (sendsOf_cons x xs).
    now rewrite <- List.app_assoc.
Qed.



(** X13. An error or disconnect event closes the gate.  After either
    event the module is not ready, and the session and the queue are as
    they were; until a ready event arrives nothing is fetched or sent and
    every call is queued in order. *)
Theorem X13_error_and_disconnect_close_the_gate :
  forall env x xs s,
    (x = EventDisconnect \/ exists err, x = EventError err) ->
    List.forallb (fun y => negb (isEventReady y)) xs = true ->
    let s1 := Proc.state (step env x s) in
    let s' := Proc.state (steps env (x :: xs) s) in
    client s1 = client s
    /\ messageQueue s1 = messageQueue s
    /\ (client s <> None -> isReady s1 = false)
    /\ (client s <> None ->
        isReady s' = false
        /\ messageQueue s' = (messageQueue s ++ sendsOf xs)%list
        /\ usesConnection (Proc.effects (steps env (x :: xs) s)) = false).
Proof.
  intros env x xs s Hx Hxs s1 s'. subst s1 s'.
  assert (H1 : client (Proc.state (step env x s)) = client s
               /\ messageQueue (Proc.state (step env x s)) = messageQueue s
               /\ (client s <> None -> isReady (Proc.state (step env x s)) = false)
               /\ usesConnection (Proc.effects (step env x s)) = false).
  { destruct Hx as [->|[err ->]]; cbn [step]; unfold whenClient;
      rewrite bind_get; destruct (client s) eqn:Hc; cbn;
      repeat split; congruence. }
  destruct H1 as (Hc1 & Hq1 & Hr1 & Hu1).
  split; [assumption|]. split; [assumption|]. split; [assumption|].
  intros Hc. destruct (steps_cons env x xs s) as (_ & -> & ->).
  destruct (steps_gated env xs _ Hxs (Hr1 Hc)) as (I1 & I2 & I3).
  rewrite I1, I2, Hq1, usesConnection_app, Hu1, I3. repeat split.
Qed.

Lemma X13_witness :
  (EventDisconnect = EventDisconnect \/ exists err, EventDisconnect = EventError err)
  /\ messageQueue
       (Proc.state
          (steps withToken
             [ EventDisconnect;
               CallSend (frozenAt 0) delivering "u1" approved None ]
             (readyBot [])))
     = [ fresh "u1" approved None ].
Proof.
  split; [left; reflexivity|].
  apply (proj2 (proj2 (proj2
           (X13_error_and_disconnect_close_the_gate withToken EventDisconnect
              [ CallSend (frozenAt 0) delivering "u1" approved None ]
              (readyBot []) (or_introl eq_refl) eq_refl)))).
  discriminate.
Defined.

(** ** The ready handler *)




(** ** The drain timers run out *)

Lemma pick_none ts : pick ts = None -> ts = [].
Proof.
  destruct ts as [|t rest]; [reflexivity|]. cbn [pick].
  destruct (pick rest) as [[u rest']|]; [|discriminate].
  destruct (due t <=? due u); discriminate.
Qed.

Lemma pick_some ts :
  forall t rest,
    pick ts = Some (t, rest) ->
    List.length ts = S (List.length rest)
    /\ (forall u, List.In u ts -> u = t \/ List.In u rest).
Proof.
  induction ts as [|a ts IH]; intros t rest H; [discriminate H|].
  cbn [pick] in H.
  destruct (pick ts) as [[u rest']|] eqn:E.
  - destruct (IH u rest' eq_refl) as [Hlen Hin].
    destruct (due a <=? due u); injection H as <- <-.
    + split; [reflexivity|]. intros v [Hv|Hv]; [now left | now right].
    + cbn [List.length]. split; [now rewrite Hlen|].
      intros v [Hv|Hv]; [right; now left|].
      destruct (Hin v Hv) as [Hv'|Hv']; [now left | right; now right].
  - apply pick_none in E. subst ts. injection H as <- <-.
    split; [reflexivity|]. intros v [Hv|[]]. now left.
Qed.

Lemma drainJob_idle cb t net s :
  isDrainJob cb = true ->
  isReady s = false \/ messageQueue s = [] ->
  runCallback cb t net s = (Fulfilled tt, s, []).
Proof.
  intros Hcb Hidle. destruct cb; try discriminate Hcb; cbn [runCallback].
  - now apply processMessageQueue_idle.
  - unfold intervalCallback. rewrite bind_get.
    destruct Hidle as [H|H]; rewrite H; [reflexivity|].
    now rewrite Bool.andb_false_r.
Qed.

Lemma drainJob_run cb t net s c m rest :
  isDrainJob cb = true ->
  isReady s = true -> client s = Some c -> messageQueue s = m :: rest ->
  exists effs,
    runCallback cb t net s
    = (Fulfilled tt, afterAttempt net m (withQueue rest s), effs)
    /\ actions effs
       = (attemptActions net (userId m)
            (composeEmbed (discordBot applicationConfig) (frozenAt t)
               (status m) (reason m))
          ++ followUps net m)%list.
Proof.
  intros Hcb Hr Hc Hq.
  destruct (processMessageQueue_run quiet (frozenAt t) net s c m rest Hr Hc Hq)
    as (effs & Hrun & Hact).
  change (quiet (withQueue rest s)) with (withQueue rest s) in Hrun.
  destruct cb; try discriminate Hcb; cbn [runCallback].
  - now exists effs.
  - unfold intervalCallback. rewrite bind_get, Hr, Hq.
    cbn [andb List.length Nat.ltb Nat.leb].
    unfold Proc.bind, Proc.emit. rewrite Hrun.
    eexists. split; [reflexivity|]. actions_cbn. exact Hact.
Qed.

Lemma otherJob_run cb t net s :
  isDrainJob cb = false -> runCallback cb t net s = (Fulfilled tt, s, []).
Proof. intros Hcb. now destruct cb. Qed.

Lemma arm_pass_length t net uid embed m :
  (List.length (arm t (attemptActions net uid embed ++ followUps net m)) <= 4)%nat
  /\ (delivers net = true \/ (retries m <? 3) = false ->
      (List.length (arm t (attemptActions net uid embed ++ followUps net m)) <= 3)%nat)
  /\ exists u,
       List.In u (arm t (attemptActions net uid embed ++ followUps net m))
       /\ isDrainJob (job u) = true.
Proof.
  unfold attemptActions, followUps.
  destruct (fetchReply net), (delivers net), (retries m <? 3);
    cbn [arm List.flat_map app List.length];
    (split; [lia|]); (split; [intros [H|H]; try discriminate H; lia|]);
    exists {| due := t + 1000; job := DrainCallback |};
    (split; [|reflexivity]); cbn [List.In];
    repeat (first [left; reflexivity | right]).
Qed.

Lemma credit_cons m q : credit (m :: q) = (budget m + credit q)%nat.
Proof. reflexivity. Qed.

Lemma budget_retry m :
  0 <= retries m -> retries m < 3 -> budget m = S (budget (retry m)).
Proof. intros H1 H2. unfold budget. cbn [retries retry]. lia. Qed.

Lemma budget_positive m : retries m <= 3 -> (1 <= budget m)%nat.
Proof. intros H. unfold budget. lia. Qed.

Lemma tick_no_timer net w : timers w = [] -> tick net w = w.
Proof. intros H. unfold tick. now rewrite H. Qed.

Lemma tick_progress net w :
  readyHasSession (bot w) -> retriesBounded (bot w) -> timers w <> [] ->
  (potential (tick net w) < potential w)%nat
  /\ readyHasSession (bot (tick net w))
  /\ retriesBounded (bot (tick net w))
  /\ isReady (bot (tick net w)) = isReady (bot w)
  /\ (isReady (bot w) = true -> drainPending w -> drainPending (tick net w)).
Proof.
  intros Hrs Hrb Hts. unfold tick.
  destruct (pick (timers w)) as [[t rest]|] eqn:Hp;
    [|apply pick_none in Hp; contradiction].
  destruct (pick_some _ _ _ Hp) as [Hlen Hin].
  set (at_ := Z.max (now w) (due t)).
  destruct w as [s t0 ts tr]. cbn [bot now timers trace] in *.
  assert (Hsame :
    forall effs, actions effs = [] ->
      let w' := exec (fun _ => (Fulfilled tt, s, effs))
                  {| bot := s; now := at_; timers := rest; trace := tr |} in
      (potential w' < potential {| bot := s; now := t0; timers := ts; trace := tr |})%nat
      /\ readyHasSession (bot w') /\ retriesBounded (bot w')
      /\ isReady (bot w') = isReady s
      /\ timers w' = rest).
  { intros effs Heff w'. subst w'. unfold exec, potential.
    cbn [bot now timers trace].
    rewrite <- arm_actions, Heff. cbn [arm List.flat_map].
    rewrite List.app_nil_r, Hlen. repeat split; try assumption. lia. }
  destruct (isDrainJob (job t)) eqn:Hj.
  - assert (Hidle : isReady s = false \/ messageQueue s = [] ->
              (potential
                 (exec (runCallback (job t) at_ net)
                    {| bot := s; now := at_; timers := rest; trace := tr |})
               < potential {| bot := s; now := t0; timers := ts; trace := tr |})%nat
              /\ readyHasSession
                   (bot (exec (runCallback (job t) at_ net)
                           {| bot := s; now := at_; timers := rest; trace := tr |}))
              /\ retriesBounded
                   (bot (exec (runCallback (job t) at_ net)
                           {| bot := s; now := at_; timers := rest; trace := tr |}))
              /\ isReady
                   (bot (exec (runCallback (job t) at_ net)
                           {| bot := s; now := at_; timers := rest; trace := tr |}))
                 = isReady s
              /\ (isReady s = true ->
                  drainPending {| bot := s; now := t0; timers := ts; trace := tr |} ->
                  drainPending
                    (exec (runCallback (job t) at_ net)
                       {| bot := s; now := at_; timers := rest; trace := tr |}))).
    { intros Hi.
      destruct (Hsame [] eq_refl) as (P1 & P2 & P3 & P4 & P5).
      assert (E : exec (runCallback (job t) at_ net)
                    {| bot := s; now := at_; timers := rest; trace := tr |}
                  = exec (fun _ => (Fulfilled tt, s, []))
                      {| bot := s; now := at_; timers := rest; trace := tr |}).
      { unfold exec. cbn [bot]. now rewrite (drainJob_idle _ at_ net s Hj Hi). }
      rewrite E. repeat split; try assumption.
      intros Hr _. left. destruct Hi as [Hi|Hi]; [congruence | exact Hi]. }
    destruct (isReady s) eqn:Hr; [|apply Hidle; now left].
    destruct (messageQueue s) as [|m q] eqn:Hq; [apply Hidle; now right|].
    clear Hidle Hsame.
    destruct (client s) as [c|] eqn:Hc; [|exfalso; now apply (Hrs Hr)].
    destruct (drainJob_run (job t) at_ net s c m q Hj Hr Hc Hq)
      as (effs & Hrun & Hact).
    unfold exec. cbn [bot now timers trace]. rewrite Hrun.
    cbn [bot now timers trace].
    rewrite <- arm_actions, Hact.
    destruct (arm_pass_length at_ net (userId m)
                (composeEmbed (discordBot applicationConfig) (frozenAt at_)
                   (status m) (reason m)) m) as (L4 & L3 & u & Hu & Hud).
    set (armed := arm at_ _) in *.
    unfold retriesBounded in Hrb. rewrite Hq in Hrb.
    inversion Hrb as [|? ? Hm Hqb]; subst.
    destruct (afterAttempt_client net m (withQueue q s)) as [Ac Ar].
    split; [|split; [|split; [|split]]].
    + unfold potential. cbn [bot timers]. rewrite Hq, List.length_app, Hlen.
      rewrite credit_cons. unfold afterAttempt.
      pose proof (budget_positive m (proj2 Hm)) as Hb.
      destruct (delivers net) eqn:Hd.
      * cbn [messageQueue withQueue]. specialize (L3 (or_introl eq_refl)). lia.
      * destruct (Z.ltb_spec (retries m) 3) as [Hlt|Hge].
        -- cbn [messageQueue withQueue]. rewrite credit_cons.
           rewrite (budget_retry m (proj1 Hm) Hlt). lia.
        -- cbn [messageQueue withQueue]. specialize (L3 (or_intror eq_refl)). lia.
    + unfold readyHasSession. rewrite Ac, Ar. cbn [client isReady withQueue].
      rewrite Hc. congruence.
    + apply afterAttempt_retriesBounded; [assumption|exact Hqb].
    + rewrite Ar. exact Hr.
    + intros _ _. right. exists u. split; [|assumption].
      cbn [timers]. apply List.in_or_app. now right.
  - assert (E : exec (runCallback (job t) at_ net)
                  {| bot := s; now := at_; timers := rest; trace := tr |}
                = exec (fun _ => (Fulfilled tt, s, []))
                    {| bot := s; now := at_; timers := rest; trace := tr |}).
    { unfold exec. cbn [bot]. now rewrite (otherJob_run _ at_ net s Hj). }
    rewrite E. destruct (Hsame [] eq_refl) as (P1 & P2 & P3 & P4 & P5).
    repeat split; try assumption.
    intros Hr [Hq|(u & Hu & Hud)]; [now left|]. right. exists u.
    split; [|assumption]. rewrite P5.
    cbn [timers] in Hu. destruct (Hin u Hu) as [->|Hu']; [congruence|assumption].
Qed.

Lemma ticks_no_timer nets w : timers w = [] -> ticks nets w = w.
Proof.
  intros H. induction nets as [|net more IH]; [reflexivity|].
  cbn [ticks]. now rewrite (tick_no_timer net w H).
Qed.

(** X15. The timer chain dies out and nothing is left behind.  With a
    module in which readiness implies a session and the queued retry
    counts are within 0 to 3, fire the pending timers one after the
    other, whatever the platform answers to each attempt: after at most
    (number of pending timers) + 4 * (sum over the queued items of 4
    minus the retry count) firings no timer is pending.  If moreover the
    module is ready and a drain is pending whenever an item is queued,
    the queue is empty by then: every item was delivered or given up. *)
Theorem X15_timer_chain_dies_out :
  forall nets w,
    readyHasSession (bot w) -> retriesBounded (bot w) ->
    (potential w <= List.length nets)%nat ->
    timers (ticks nets w) = []
    /\ (isReady (bot w) = true -> drainPending w ->
        messageQueue (bot (ticks nets w)) = []).
Proof.
  induction nets as [|net more IH]; intros w Hrs Hrb Hpot.
  - cbn [ticks List.length] in *. unfold potential in Hpot.
    assert (Ht : timers w = []).
    { destruct (timers w); [reflexivity | cbn in Hpot; lia]. }
    split; [exact Ht|].
    intros _ [Hq|(t & Ht' & _)]; [exact Hq|]. rewrite Ht in Ht'. contradiction.
  - destruct (timers w) as [|t0 ts0] eqn:Ht.
    + rewrite (ticks_no_timer _ w Ht). split; [exact Ht|].
      intros _ [Hq|(t & Ht' & _)]; [exact Hq|]. rewrite Ht in Ht'. contradiction.
    + cbn [ticks].
      assert (Hne : timers w <> []) by (rewrite Ht; discriminate).
      destruct (tick_progress net w Hrs Hrb Hne) as (P & Q1 & Q2 & Q3 & Q4).
      cbn [List.length] in Hpot.
      destruct (IH (tick net w) Q1 Q2) as [I1 I2]; [lia|].
      split; [exact I1|].
      intros Hr Hd. apply I2; [now rewrite Q3 | now apply Q4].
Qed.

Lemma X15_witness :
  (potential (drainDue (readyBot [fresh "u3" denied None]))
   <= List.length (List.repeat failing 17))%nat
  /\ timers (ticks (List.repeat failing 17)
               (drainDue (readyBot [fresh "u3" denied None])))
     = [].
Proof.
  assert (H : (potential (drainDue (readyBot [fresh "u3" denied None]))
               <= List.length (List.repeat failing 17))%nat).
  { vm_compute. apply le_n. }
  split; [exact H|].
  apply (X15_timer_chain_dies_out (List.repeat failing 17)
           (drainDue (readyBot [fresh "u3" denied None]))).
  - intros _. discriminate.
  - repeat constructor; discriminate.
  - exact H.
Defined.

(** ** The configuration accessors *)

Lemma existsb_eqb_In (d : string) (l : list string) :
  List.existsb (String.eqb d) l = true <-> List.In d l.
Proof.
  rewrite List.existsb_exists. split.
  - intros (x & Hx & E). apply String.eqb_eq in E. now subst.
  - intros H. exists d. split; [assumption | apply String.eqb_refl].
Qed.

(** X16. Who is an administrator.  [isAdmin] answers true exactly for a
    Discord id that is given, is not the empty string and is in the list
    of administrators: an absent id and the empty id are never
    administrators, even if the empty string were listed.  With the
    configured list that is exactly the three configured ids. *)
Theorem X16_isAdmin_exactly_the_listed :
  (forall admins discordId,
     Form.isAdminIn admins discordId = true
     <-> exists d, discordId = Some d /\ d <> "" /\ List.In d admins)
  /\ (forall admins, Form.isAdminIn admins None = false
                     /\ Form.isAdminIn admins (Some "") = false)
  /\ (forall discordId,
        Form.isAdmin discordId = true
        <-> discordId = Some "770344107104010261"
            \/ discordId = Some "123456789012345678"
            \/ discordId = Some "987654321098765432").
Proof.
  assert (H : forall admins discordId,
             Form.isAdminIn admins discordId = true
             <-> exists d, discordId = Some d /\ d <> "" /\ List.In d admins).
  { intros admins [d|]; cbn [Form.isAdminIn JS.truthy].
    - rewrite Bool.andb_true_iff, Bool.negb_true_iff, existsb_eqb_In.
      rewrite String.eqb_neq. split.
      + intros [H1 H2]. now exists d.
      + intros (d' & E & H1 & H2). injection E as <-. now split.
    - split; [discriminate|]. intros (d & E & _). discriminate E. }
  split; [exact H|]. split.
  - intros admins. split; reflexivity.
  - intros discordId. unfold Form.isAdmin. rewrite H.
    unfold Form.adminDiscordIds. cbn [List.In]. split.
    + intros (d & -> & _ & [ <- | [ <- | [ <- | [] ] ] ]); tauto.
    + intros [ -> | [ -> | -> ] ]; eexists; (split; [reflexivity|]);
        (split; [discriminate|]); tauto.
Qed.

Lemma find_first_key {A} (key : A -> string) (l : list A) (x : A) :
  List.In x l -> List.NoDup (List.map key l) ->
  List.find (fun y => String.eqb (key y) (key x)) l = Some x.
Proof.
  induction l as [|a l IH]; intros Hin Hnd; [contradiction|].
  cbn [List.map] in Hnd. inversion Hnd as [|? ? Hna Hnd']; subst.
  cbn [List.find]. destruct Hin as [->|Hin].
  - now rewrite String.eqb_refl.
  - destruct (String.eqb_spec (key a) (key x)) as [E|E].
    + exfalso. apply Hna. rewrite E. now apply List.in_map.
    + now apply IH.
Qed.

(** X17. Looking a form field up.  What [getFormField] returns has the
    name asked for and is a field of a section with the id asked for; an
    unknown section id or field name gives nothing.  When section ids are
    distinct and the field names of a section are distinct, every field
    of every section is found under its section id and name. *)
Theorem X17_getFormField_finds_configured_fields :
  forall secs,
    (forall sid fname f,
       Form.getFormFieldIn secs sid fname = Some f ->
       Form.name f = fname
       /\ exists sec, List.In sec secs /\ Form.id sec = sid
                      /\ List.In f (Form.fields sec))
    /\ (forall sid fname,
          ~ List.In sid (List.map Form.id secs) ->
          Form.getFormFieldIn secs sid fname = None)
    /\ (List.NoDup (List.map Form.id secs) ->
        forall sec f,
          List.In sec secs -> List.In f (Form.fields sec) ->
          List.NoDup (List.map Form.name (Form.fields sec)) ->
          Form.getFormFieldIn secs (Form.id sec) (Form.name f) = Some f).
Proof.
  intros secs. split; [|split].
  - intros sid fname f H. unfold Form.getFormFieldIn in H.
    destruct (List.find _ secs) as [sec|] eqn:Es; [|discriminate H].
    apply List.find_some in Es as [Hsec Hid].
    apply List.find_some in H as [Hf Hname].
    apply String.eqb_eq in Hid, Hname.
    split; [assumption|]. now exists sec.
  - intros sid fname Hnot. unfold Form.getFormFieldIn.
    destruct (List.find _ secs) as [sec|] eqn:Es; [|reflexivity].
    apply List.find_some in Es as [Hsec Hid]. apply String.eqb_eq in Hid.
    exfalso. apply Hnot. rewrite <- Hid. now apply List.in_map.
  - intros Hnd sec f Hsec Hf Hndf. unfold Form.getFormFieldIn.
    rewrite (find_first_key Form.id secs sec Hsec Hnd).
    now apply find_first_key.
Qed.

Lemma X17_witness :
  List.NoDup (List.map Form.id Form.sections)
  /\ Form.getFormField "auth" "steamId"
     = List.nth_error
         (match List.nth_error Form.sections 1 with
          | Some sec => Form.fields sec
          | None => []
          end) 0.
Proof.
  assert (Hnd : List.NoDup (List.map Form.id Form.sections)).
  { cbn. repeat constructor; cbn; intuition discriminate. }
  split; [exact Hnd|].
  cbn [List.nth_error Form.sections Form.fields].
  refine (proj2 (proj2 (X17_getFormField_finds_configured_fields Form.sections))
            Hnd
            {| Form.id := "auth"; Form.title := _; Form.sectionDescription := _;
               Form.icon := _; Form.fields := _ |}
            {| Form.name := "steamId"; Form.label := _; Form.placeholder := _;
               Form.description := _; Form.type := _; Form.required := _;
               Form.minLength := _; Form.maxLength := _; Form.pattern := _;
               Form.validationMessage := _ |} _ _ _).
  - right. left. reflexivity.
  - left. reflexivity.
  - cbn. repeat constructor; cbn; intuition discriminate.
Defined.

(** ** The admin page *)

(** X18. The admin page is for administrators.  Whatever [isAdmin] is:
    the page is rendered exactly when the session status is not loading
    and the session carries a Discord user who is an administrator; a
    signed-in user who is not an administrator is redirected to the home
    page and shown nothing, whatever the status; the applications are
    loaded only with status authenticated; and when the page is rendered
    with status authenticated the effect loads the applications and does
    not redirect. *)
Theorem X18_admin_page_access :
  forall isAdmin status session,
    (Admin.rendersPage isAdmin status session = true
     <-> status <> Admin.loading
         /\ exists d, Admin.discordOf session = Some d
                      /\ isAdmin (Some (Admin.id d)) = true)
    /\ (forall d, Admin.discordOf session = Some d ->
          isAdmin (Some (Admin.id d)) = false ->
          Admin.accessEffect isAdmin status session = Admin.RouterPush "/"
          /\ Admin.rendersPage isAdmin status session = false)
    /\ (Admin.accessEffect isAdmin status session = Admin.FetchApplications ->
        status = Admin.authenticated
        /\ isAdmin (option_map Admin.id (Admin.discordOf session)) = true)
    /\ (Admin.rendersPage isAdmin status session = true ->
        status = Admin.authenticated ->
        Admin.accessEffect isAdmin status session = Admin.FetchApplications)
    /\ (status = Admin.unauthenticated ->
        Admin.accessEffect isAdmin status session = Admin.RouterPush "/").
Proof.
  intros isAdmin status session.
  unfold Admin.rendersPage, Admin.accessEffect.
  destruct (Admin.discordOf session) as [d|] eqn:Hd; cbn [option_map].
  - destruct (isAdmin (Some (Admin.id d))) eqn:Ha; destruct status; cbn;
      (split; [split; [intros H; first [discriminate H | split; [discriminate | now exists d]]
                      | intros (Hs & d' & E & H); injection E as <-; congruence]|]);
      (split; [intros d' E H; injection E as <-; first [congruence | split; reflexivity]|]);
      (split; [intros H; first [discriminate H | split; reflexivity]|]);
      (split; [intros H1 H2; first [discriminate H1 | discriminate H2 | reflexivity]
              | intros H; first [discriminate H | reflexivity]]).
  - destruct (isAdmin None) eqn:Ha; destruct status; cbn;
      (split; [split; [intros H; discriminate H
                      | intros (Hs & d' & E & H); discriminate E]|]);
      (split; [intros d' E H; discriminate E|]);
      (split; [intros H; first [discriminate H | split; reflexivity]|]);
      (split; [intros H1 H2; discriminate H1
              | intros H; first [discriminate H | reflexivity]]).
Qed.

Lemma X18_witness :
  Admin.rendersPage Form.isAdmin Admin.authenticated
    (Some {| Admin.discord := Some adminUser |}) = true
  /\ Admin.accessEffect Form.isAdmin Admin.authenticated
       (Some {| Admin.discord := Some adminUser |})
     = Admin.FetchApplications.
Proof.
  split; [reflexivity|].
  apply (proj1 (proj2 (proj2 (proj2
           (X18_admin_page_access Form.isAdmin Admin.authenticated
              (Some {| Admin.discord := Some adminUser |})))))); reflexivity.
Defined.

(** ** The applications route *)

Lemma POST_written toISOString clk application file items :
  stored file = Some items ->
  Api.POST toISOString clk Api.Written (Some application) file
  = (Api.json (Api.JObject [ ("message", Api.JString "Application submitted successfully") ]),
     Api.Holds (Api.JArray (items ++ [Api.newApplication toISOString clk application])),
     false).
Proof.
  intros H. unfold Api.POST.
  destruct file as [| |v]; cbn in H.
  - injection H as <-. reflexivity.
  - injection H as <-. reflexivity.
  - destruct v; try discriminate H. injection H as <-. reflexivity.
Qed.




Lemma lookup_app key a b :
  Api.lookup key (a ++ b)
  = match Api.lookup key b with
    | Some v => Some v
    | None => Api.lookup key a
    end.
Proof.
  induction a as [|[k v] a IH]; cbn [app Api.lookup].
  - now destruct (Api.lookup key b).
  - rewrite IH. destruct (Api.lookup key b); [reflexivity|].
    reflexivity.
Qed.

(** X20. The record that is stored.  It has every property the request
    body has, with the body's value: in particular an [id] or a
    [timestamp] sent in the body replaces the generated one.  Where the
    body has none, [id] is the clock's reading in decimal and [timestamp]
    the rendering of the second reading; the record has no other key. *)
Theorem X20_body_overrides_generated_fields :
  forall toISOString clk application key,
    Api.lookup key (membersOf (Api.newApplication toISOString clk application))
    = match Api.lookup key (Api.ownProperties application) with
      | Some v => Some v
      | None =>
          if String.eqb key "timestamp"
          then Some (Api.JString (toISOString (clk 1%nat)))
          else if String.eqb key "id"
          then Some (Api.JString (JS.numberToString (clk 0%nat)))
          else None
      end.
Proof.
  intros toISOString clk application key.
  unfold Api.newApplication. cbn [membersOf]. rewrite lookup_app.
  destruct (Api.lookup key (Api.ownProperties application)); [reflexivity|].
  cbn [Api.lookup].
  rewrite (String.eqb_sym "timestamp" key), (String.eqb_sym "id" key).
  destruct (String.eqb key "timestamp"); reflexivity.
Qed.

(** X21. When a submission succeeds.  [POST] answers 200 exactly when
    the body parses, the data file is missing, unparsable or holds an
    array, and the write goes through; the file then holds the former
    applications (none for a missing or unparsable file, whose content is
    thus replaced) followed by the new record.  In every other case it
    answers 500 with the error message, logs, and, unless the write
    itself failed, leaves the file as it was; a file holding JSON that is
    not an array is never written to.  [GET] answers 200 with the file's
    value exactly when the file holds JSON, array or not, and 500
    otherwise. *)
Theorem X21_post_and_get_outcomes :
  forall toISOString clk fs request file,
    let resp := fst (fst (Api.POST toISOString clk fs request file)) in
    let file' := snd (fst (Api.POST toISOString clk fs request file)) in
    let logged := snd (Api.POST toISOString clk fs request file) in
    (Api.status resp = 200
     <-> exists application items,
           request = Some application /\ stored file = Some items
           /\ fs = Api.Written)
    /\ (forall application items,
          request = Some application -> stored file = Some items ->
          fs = Api.Written ->
          file' = Api.Holds
                    (Api.JArray
                       (items ++ [Api.newApplication toISOString clk application]))
          /\ logged = false)
    /\ (Api.status resp <> 200 ->
        resp = Api.failure "Failed to save application"
        /\ logged = true
        /\ (fs = Api.Written -> file' = file)
        /\ (stored file = None -> file' = file))
    /\ (Api.status (fst (Api.GET file)) = 200
        <-> exists v, file = Api.Holds v /\ Api.GET file = (Api.json v, false))
    /\ (Api.status (fst (Api.GET file)) <> 200 ->
        Api.GET file = (Api.failure "Failed to read applications", true)).
Proof.
  intros toISOString clk fs request file resp file' logged.
  subst resp file' logged.
  split; [|split; [|split; [|split]]].
  - split.
    + destruct request as [application|]; [|discriminate].
      destruct file as [| |v]; [| |destruct v]; destruct fs;
        cbn; intros H; try discriminate H;
        eexists; eexists; repeat split; reflexivity.
    + intros (application & items & -> & Hs & ->).
      now rewrite (POST_written _ _ _ _ _ Hs).
  - intros application items -> Hs ->.
    rewrite (POST_written _ _ _ _ _ Hs). split; reflexivity.
  - destruct request as [application|].
    + destruct file as [| |v]; [| |destruct v]; destruct fs;
        cbn; intros H; try (exfalso; apply H; reflexivity);
        repeat split; intros E; try discriminate E; reflexivity.
    + cbn. intros _. repeat split.
  - destruct file as [| |v]; cbn; split; try discriminate.
    + intros (v & E & _). discriminate E.
    + intros (v & E & _). discriminate E.
    + intros _. now exists v.
    + reflexivity.
  - destruct file as [| |v]; cbn; intros H; try reflexivity.
    exfalso. apply H. reflexivity.
Qed.
